(** * VirtualPageRowModel: the row model that owns the virtual page cache

    A shallow embedding of
    [src/ts/rowControllers/virtualPagination/virtualPageRowModel.ts].

    The class is a thin coordinator.  It keeps two fields of interest, the
    [datasource] and the live [virtualPageCache], and on every reset it takes a
    snapshot of the grid options, hands it to a newly constructed cache, and
    tells the rest of the grid that the model was updated.

    JavaScript numbers are IEEE 754 doubles, so they are embedded as Rocq's
    primitive floats; a slot that TypeScript types as [T] may also hold
    [undefined] or [null], which is what [Js.maybe] records. *)

From Stdlib Require Import PrimFloat.
From stdpp Require Import base strings list gmap.

(** ** JavaScript values *)

Module Js.

(** A slot of static type [A] (the project compiles without strict null
    checks, so every slot may be [undefined] or [null]). *)
Inductive maybe (A : Type) : Type :=
| undefined
| null
| some (a : A).

Arguments undefined {A}.
Arguments null {A}.
Arguments some {A} a.

Abbreviation number := (maybe float).

(** A slot of static type [any], as the deprecated datasource fields are read
    after the cast [<any> this.datasource]. *)
Inductive any : Type :=
| any_undefined
| any_null
| any_boolean (b : bool)
| any_number (f : float)
| any_string (s : string)
| any_object.

(** Truthiness of an object-typed slot: every object is truthy, [undefined]
    and [null] are not. *)
Definition truthy {A : Type} (v : maybe A) : bool :=
  match v with
  | some _ => true
  | _ => false
  end.

(** ToNumber on a number-typed slot: [undefined] becomes NaN and [null]
    becomes +0. *)
Definition to_number (x : number) : float :=
  match x with
  | undefined => nan
  | null => 0%float
  | some f => f
  end.

(** The relational operator [x >= k]: false as soon as either side is NaN. *)
Definition ge (x : number) (k : float) : bool :=
  PrimFloat.leb k (to_number x).

Arguments ge _ _ : simpl never.

Definition num (f : float) : number := some f.

End Js.

Import Js.

(** ** Utils

    [_.exists] and [_.missing] come from [utils.ts], which is not among the
    sources at hand; the spec (section 9) calls them the optional/missing
    value checks. *)

Module Utils.

(** Modelled from the spec: [_.exists(value)], the check for an optional
    value.  A value exists unless it is [null], [undefined] or the empty
    string; a slot that holds objects, functions or numbers cannot hold the
    empty string. *)
Definition exists_ {A : Type} (v : maybe A) : bool :=
  match v with
  | undefined | null => false
  | some _ => true
  end.

(** Modelled from the spec: [_.missing(value)], the negation of [_.exists]. *)
Definition missing {A : Type} (v : maybe A) : bool := negb (exists_ v).

(** Modelled from the spec: [_.exists(value)] on an [any]-typed slot, where
    the empty string can occur. *)
Definition exists_any (v : any) : bool :=
  match v with
  | any_undefined | any_null => false
  | any_string EmptyString => false
  | _ => true
  end.

End Utils.

(** ** Events and listeners *)

Inductive Event : Type :=
| EVENT_MODEL_UPDATED
| EVENT_FILTER_CHANGED
| EVENT_SORT_CHANGED.

(** The two bound methods that [addEventListeners] registers. *)
Inductive Listener : Type :=
| onFilterChangedListener
| onSortChangedListener.

(** The closures pushed on [destroyFunctions]; the class pushes one kind only,
    the one that removes both listeners again. *)
Inductive DestroyFunction : Type :=
| removeListeners.

(** Modelled from the spec: [NumberSequence] comes from [utils.ts]; the spec
    calls it the SequenceCounter, a monotonically increasing counter.  A new
    one has handed out no value yet. *)
Record NumberSequence : Type := { nextValue : Z }.

Definition new_NumberSequence : NumberSequence := {| nextValue := 0 |}.

(** Modelled from the spec: load state of a page (section 3). *)
Inductive PageState : Type :=
| NotLoaded
| Loading
| Loaded
| Failed.

Section RowModel.

(** Opaque collaborators' types: the row entity, the filter and sort
    descriptors, the datasource's [getRows] function and the application's
    row-identity function are never inspected by the row model. *)
Context {RowNode FilterModel SortModel GetRows RowNodeIdFunc : Type}.

(** The [IDataSource] object, together with the four fields that were
    configuration before version 5.1 and that [checkForDeprecated] looks for. *)
Record IDataSource : Type := {
  getRows : GetRows;
  rowCount : number;
  ds_maxConcurrentRequests : any;
  ds_maxPagesInCache : any;
  ds_overflowSize : any;
  ds_pageSize : any
}.

(** What each getter of [GridOptionsWrapper] returns at the moment it is
    called.  The wrapper is outside this file; a field per getter. *)
Record GridOptionsWrapper : Type := {
  isRowModelVirtual : bool;
  getDatasource : maybe IDataSource;
  isEnableServerSideFilter : bool;
  isEnableServerSideSorting : bool;
  getRowNodeIdFunc : maybe RowNodeIdFunc;
  getMaxConcurrentDatasourceRequests : number;
  getPaginationOverflowSize : number;
  getPaginationInitialRowCount : number;
  getMaxPagesInCache : number;
  getPaginationPageSize : number;
  getRowHeightAsNumber : number
}.

(** [CacheParams], field by field as the literal in [resetCache] builds it. *)
Record CacheParams : Type := {
  datasource : maybe IDataSource;
  filterModel : FilterModel;
  sortModel : SortModel;
  maxConcurrentDatasourceRequests : number;
  paginationOverflowSize : number;
  paginationInitialRowCount : number;
  maxPagesInCache : number;
  pageSize : number;
  rowHeight : number;
  lastAccessedSequence : NumberSequence
}.

(** Modelled from the spec: a Page (section 3). *)
Record Page : Type := {
  pageNumber : Z;
  state : PageState;
  rows : gmap Z RowNode;
  lastAccessed : Z
}.

(** Modelled from the spec: the state of one [VirtualPageCache], whose class
    is in [virtualPageCache.ts] and not among the sources at hand.  Section 3
    lists the pages, the row-count estimate, the number of requests in
    flight, the configuration snapshot and the destroyed flag. *)
Record VirtualPageCache : Type := {
  cacheParams : CacheParams;
  pages : gmap Z Page;
  rowCountEstimate : number;
  activeRequestCount : Z;
  destroyed : bool
}.

(** Modelled from the spec: construction.  No page exists yet, nothing is in
    flight, and the estimate starts at the initial row count (section 4.1,
    row-count estimation). *)
Definition new_VirtualPageCache (cacheSettings : CacheParams) : VirtualPageCache :=
  {| cacheParams := cacheSettings;
     pages := ∅;
     rowCountEstimate := paginationInitialRowCount cacheSettings;
     activeRequestCount := 0;
     destroyed := false |}.

(** Modelled from the spec: [destroy()] sets the destroyed flag and clears the
    pages mapping (section 4.1); it is idempotent. *)
Definition VirtualPageCache_destroy (c : VirtualPageCache) : VirtualPageCache :=
  {| cacheParams := cacheParams c;
     pages := ∅;
     rowCountEstimate := rowCountEstimate c;
     activeRequestCount := activeRequestCount c;
     destroyed := true |}.

(** The query methods of the cache, to which the row model delegates.  Their
    code is not at hand, so they are an interface: each takes the cache and
    returns its answer with the cache as the call left it (a lookup touches
    recency and may create a page).  [cache_forEachNode] answers with the
    sequence of callback invocations, in order.  [cache_wireBean] is what
    the wiring of the bean leaves of a cache: the context injects the
    dependencies of the bean and runs its post-construct method, which may
    create pages and start requests. *)
Class VirtualPageCacheMethods : Type := {
  cache_getRow : number → VirtualPageCache → maybe RowNode * VirtualPageCache;
  cache_forEachNode : VirtualPageCache → list (maybe RowNode * number) * VirtualPageCache;
  cache_getRowCombinedHeight : VirtualPageCache → number * VirtualPageCache;
  cache_getRowIndexAtPixel : number → VirtualPageCache → number * VirtualPageCache;
  cache_getRowCount : VirtualPageCache → number * VirtualPageCache;
  cache_wireBean : VirtualPageCache → VirtualPageCache
}.

Context `{!VirtualPageCacheMethods}.

(** Modelled from the spec: a cache after [context.wireBean(cache)].  The
    context and the post-construct method of the cache are outside this
    file, so what the wiring does to the pages, the row-count estimate, the
    requests in flight and the destroyed flag is [cache_wireBean].  The
    configuration snapshot is immutable for the lifetime of a cache
    (section 3): the settings stay the ones the cache was constructed with. *)
Definition wired (c : VirtualPageCache) : VirtualPageCache :=
  {| cacheParams := cacheParams c;
     pages := pages (cache_wireBean c);
     rowCountEstimate := rowCountEstimate (cache_wireBean c);
     activeRequestCount := activeRequestCount (cache_wireBean c);
     destroyed := destroyed (cache_wireBean c) |}.

(** Calls that leave the row model, in the order they are made. *)
Inductive Call : Type :=
| ConsoleError (msg : string)
| ConsoleLog (msg : string)
| AddEventListener (e : Event) (l : Listener)
| RemoveEventListener (e : Event) (l : Listener)
| DispatchEvent (e : Event)
| SelectionReset
| CacheDestroy
| CacheNew (cacheSettings : CacheParams)
| WireBean.

(** The fields of the [VirtualPageRowModel] object itself. *)
Record Fields : Type := {
  destroyFunctions : list DestroyFunction;
  virtualPageCache : maybe VirtualPageCache;
  this_datasource : maybe IDataSource
}.

(** The row model with its injected collaborators.  [selectionController]
    holds the ids of the selected rows.  [abandoned] keeps the caches that
    were replaced: the row model has dropped them, but the completion
    callbacks of their outstanding requests still reach them.  [trace] is
    the sequence of outgoing calls, oldest first. *)
Record World : Type := {
  this : Fields;
  gridOptionsWrapper : GridOptionsWrapper;
  filterManager : FilterModel;
  sortController : SortModel;
  selectionController : gset string;
  abandoned : list VirtualPageCache;
  trace : list Call
}.

(** A freshly constructed row model: [destroyFunctions = []], the other two
    fields not yet assigned. *)
Definition new_Fields : Fields :=
  {| destroyFunctions := []; virtualPageCache := undefined; this_datasource := undefined |}.

(** *** Field updates *)

Definition set_this (f : Fields → Fields) (w : World) : World :=
  {| this := f (this w);
     gridOptionsWrapper := gridOptionsWrapper w;
     filterManager := filterManager w;
     sortController := sortController w;
     selectionController := selectionController w;
     abandoned := abandoned w;
     trace := trace w |}.

Definition set_gridOptionsWrapper (g : GridOptionsWrapper) (w : World) : World :=
  {| this := this w;
     gridOptionsWrapper := g;
     filterManager := filterManager w;
     sortController := sortController w;
     selectionController := selectionController w;
     abandoned := abandoned w;
     trace := trace w |}.

Definition set_filterManager (f : FilterModel) (w : World) : World :=
  {| this := this w;
     gridOptionsWrapper := gridOptionsWrapper w;
     filterManager := f;
     sortController := sortController w;
     selectionController := selectionController w;
     abandoned := abandoned w;
     trace := trace w |}.

Definition set_sortController (s : SortModel) (w : World) : World :=
  {| this := this w;
     gridOptionsWrapper := gridOptionsWrapper w;
     filterManager := filterManager w;
     sortController := s;
     selectionController := selectionController w;
     abandoned := abandoned w;
     trace := trace w |}.

Definition set_selectionController (s : gset string) (w : World) : World :=
  {| this := this w;
     gridOptionsWrapper := gridOptionsWrapper w;
     filterManager := filterManager w;
     sortController := sortController w;
     selectionController := s;
     abandoned := abandoned w;
     trace := trace w |}.

Definition set_abandoned (a : list VirtualPageCache) (w : World) : World :=
  {| this := this w;
     gridOptionsWrapper := gridOptionsWrapper w;
     filterManager := filterManager w;
     sortController := sortController w;
     selectionController := selectionController w;
     abandoned := a;
     trace := trace w |}.

Definition set_trace (t : list Call) (w : World) : World :=
  {| this := this w;
     gridOptionsWrapper := gridOptionsWrapper w;
     filterManager := filterManager w;
     sortController := sortController w;
     selectionController := selectionController w;
     abandoned := abandoned w;
     trace := t |}.

Definition set_destroyFunctions (d : list DestroyFunction) (f : Fields) : Fields :=
  {| destroyFunctions := d;
     virtualPageCache := virtualPageCache f;
     this_datasource := this_datasource f |}.

Definition set_virtualPageCache (c : maybe VirtualPageCache) (f : Fields) : Fields :=
  {| destroyFunctions := destroyFunctions f;
     virtualPageCache := c;
     this_datasource := this_datasource f |}.

Definition set_datasource (d : maybe IDataSource) (f : Fields) : Fields :=
  {| destroyFunctions := destroyFunctions f;
     virtualPageCache := virtualPageCache f;
     this_datasource := d |}.

Definition set_maxConcurrentDatasourceRequests (v : number) (p : CacheParams) : CacheParams :=
  {| datasource := datasource p;
     filterModel := filterModel p;
     sortModel := sortModel p;
     maxConcurrentDatasourceRequests := v;
     paginationOverflowSize := paginationOverflowSize p;
     paginationInitialRowCount := paginationInitialRowCount p;
     maxPagesInCache := maxPagesInCache p;
     pageSize := pageSize p;
     rowHeight := rowHeight p;
     lastAccessedSequence := lastAccessedSequence p |}.

Definition set_pageSize (v : number) (p : CacheParams) : CacheParams :=
  {| datasource := datasource p;
     filterModel := filterModel p;
     sortModel := sortModel p;
     maxConcurrentDatasourceRequests := maxConcurrentDatasourceRequests p;
     paginationOverflowSize := paginationOverflowSize p;
     paginationInitialRowCount := paginationInitialRowCount p;
     maxPagesInCache := maxPagesInCache p;
     pageSize := v;
     rowHeight := rowHeight p;
     lastAccessedSequence := lastAccessedSequence p |}.

Definition set_paginationInitialRowCount (v : number) (p : CacheParams) : CacheParams :=
  {| datasource := datasource p;
     filterModel := filterModel p;
     sortModel := sortModel p;
     maxConcurrentDatasourceRequests := maxConcurrentDatasourceRequests p;
     paginationOverflowSize := paginationOverflowSize p;
     paginationInitialRowCount := v;
     maxPagesInCache := maxPagesInCache p;
     pageSize := pageSize p;
     rowHeight := rowHeight p;
     lastAccessedSequence := lastAccessedSequence p |}.

Definition set_paginationOverflowSize (v : number) (p : CacheParams) : CacheParams :=
  {| datasource := datasource p;
     filterModel := filterModel p;
     sortModel := sortModel p;
     maxConcurrentDatasourceRequests := maxConcurrentDatasourceRequests p;
     paginationOverflowSize := v;
     paginationInitialRowCount := paginationInitialRowCount p;
     maxPagesInCache := maxPagesInCache p;
     pageSize := pageSize p;
     rowHeight := rowHeight p;
     lastAccessedSequence := lastAccessedSequence p |}.

(** ** The state monad of the methods *)

Definition M (A : Type) : Type := World → A * World.

#[global] Instance M_ret : MRet M := λ A a w, (a, w).

#[global] Instance M_bind : MBind M := λ A B k m w, k (m w).1 (m w).2.

Definition gets {A : Type} (f : World → A) : M A := λ w, (f w, w).

Definition modify (f : World → World) : M unit := λ w, (tt, f w).

Definition call (c : Call) : M unit := modify (λ w, set_trace (trace w ++ [c]) w).

Definition when (b : bool) (m : M unit) : M unit := if b then m else mret tt.

(** *** Collaborators *)

Definition console_error (msg : string) : M unit := call (ConsoleError msg).

Definition console_log (msg : string) : M unit := call (ConsoleLog msg).

Definition eventService_addEventListener (e : Event) (l : Listener) : M unit :=
  call (AddEventListener e l).

Definition eventService_removeEventListener (e : Event) (l : Listener) : M unit :=
  call (RemoveEventListener e l).

Definition eventService_dispatchEvent (e : Event) : M unit := call (DispatchEvent e).

(** Modelled from the spec: the selection controller is outside this file; the
    spec speaks of the selection state that a reset either keeps or loses.
    Its [reset()] empties the selection. *)
Definition selectionController_reset : M unit :=
  modify (set_selectionController ∅) ;; call SelectionReset.

(** [this.context.wireBean(this.virtualPageCache)], line 179: the bean is the
    cache that the field holds, and the wiring changes that object in place. *)
Definition context_wireBean : M unit :=
  call WireBean ;;
  modify (set_this (λ f, set_virtualPageCache
                           match virtualPageCache f with
                           | some bean => some (wired bean)
                           | v => v
                           end f)).

(** ** The methods of VirtualPageRowModel *)

(** The first half of [resetCache()], lines 131-171: the local
    [cacheSettings], first as the object literal builds it from the
    collaborators, then with the four defaults set. *)
Definition resetCache_cacheSettings (w : World) : CacheParams :=
  let cacheSettings :=
    {| datasource := this_datasource (this w);
       filterModel := filterManager w;
       sortModel := sortController w;
       maxConcurrentDatasourceRequests := getMaxConcurrentDatasourceRequests (gridOptionsWrapper w);
       paginationOverflowSize := getPaginationOverflowSize (gridOptionsWrapper w);
       paginationInitialRowCount := getPaginationInitialRowCount (gridOptionsWrapper w);
       maxPagesInCache := getMaxPagesInCache (gridOptionsWrapper w);
       pageSize := getPaginationPageSize (gridOptionsWrapper w);
       rowHeight := getRowHeightAsNumber (gridOptionsWrapper w);
       lastAccessedSequence := new_NumberSequence |} in
  (* set defaults *)
  let cacheSettings :=
    if negb (ge (maxConcurrentDatasourceRequests cacheSettings) 1)
    then set_maxConcurrentDatasourceRequests (num 2) cacheSettings else cacheSettings in
  let cacheSettings :=
    if negb (ge (pageSize cacheSettings) 1)
    then set_pageSize (num 100) cacheSettings else cacheSettings in
  let cacheSettings :=
    if negb (ge (paginationInitialRowCount cacheSettings) 1)
    then set_paginationInitialRowCount (num 0) cacheSettings else cacheSettings in
  let cacheSettings :=
    if negb (ge (paginationOverflowSize cacheSettings) 1)
    then set_paginationOverflowSize (num 1) cacheSettings else cacheSettings in
  cacheSettings.

(** [resetCache()], lines 130-180. *)
Definition resetCache : M unit :=
  cacheSettings ← gets resetCache_cacheSettings;
  (* if not first time creating a cache, need to destroy the old one *)
  old ← gets (λ w, virtualPageCache (this w));
  match old with
  | some old =>
      call CacheDestroy ;;
      modify (λ w, set_abandoned (abandoned w ++ [VirtualPageCache_destroy old]) w)
  | _ => mret tt
  end ;;
  call (CacheNew cacheSettings) ;;
  modify (set_this (set_virtualPageCache (some (new_VirtualPageCache cacheSettings)))) ;;
  context_wireBean.

(** [reset()], lines 110-128. *)
Definition reset : M unit :=
  ds ← gets (λ w, this_datasource (this w));
  (* important to return here, as the user could be setting filter or sort
     before data-source is set *)
  if Utils.missing ds then mret tt else
  f ← gets (λ w, getRowNodeIdFunc (gridOptionsWrapper w));
  let userGeneratingRows := Utils.exists_ f in
  when (negb userGeneratingRows) selectionController_reset ;;
  resetCache ;;
  eventService_dispatchEvent EVENT_MODEL_UPDATED.

(** [checkForDeprecated()], lines 82-100.  It is only called once
    [setDatasource] has seen a truthy datasource. *)
Definition checkForDeprecated : M unit :=
  d ← gets (λ w, this_datasource (this w));
  match d with
  | some ds =>
      when (Utils.exists_any (ds_maxConcurrentRequests ds))
        (console_error "ag-Grid: since version 5.1.x, maxConcurrentRequests is replaced with grid property maxConcurrentDatasourceRequests") ;;
      when (Utils.exists_any (ds_maxPagesInCache ds))
        (console_error "ag-Grid: since version 5.1.x, maxPagesInCache is replaced with grid property maxPagesInPaginationCache") ;;
      when (Utils.exists_any (ds_overflowSize ds))
        (console_error "ag-Grid: since version 5.1.x, overflowSize is replaced with grid property paginationOverflowSize") ;;
      when (Utils.exists_any (ds_pageSize ds))
        (console_error "ag-Grid: since version 5.1.x, pageSize is replaced with grid property paginationPageSize")
  | _ => mret tt
  end.

(** [setDatasource(datasource)], lines 72-80. *)
Definition setDatasource (ds : maybe IDataSource) : M unit :=
  modify (set_this (set_datasource ds)) ;;
  (* only reset if we have a valid datasource to working with *)
  if truthy ds then checkForDeprecated ;; reset else mret tt.

(** [onFilterChanged()] and [onSortChanged()], lines 51-61. *)
Definition onFilterChanged : M unit :=
  g ← gets gridOptionsWrapper;
  if isEnableServerSideFilter g then reset else mret tt.

Definition onSortChanged : M unit :=
  g ← gets gridOptionsWrapper;
  if isEnableServerSideSorting g then reset else mret tt.

(** [addEventListeners()], lines 38-49. *)
Definition addEventListeners : M unit :=
  eventService_addEventListener EVENT_FILTER_CHANGED onFilterChangedListener ;;
  eventService_addEventListener EVENT_SORT_CHANGED onSortChangedListener ;;
  modify (set_this (λ f, set_destroyFunctions (destroyFunctions f ++ [removeListeners]) f)).

(** [init()], lines 30-36. *)
Definition init : M unit :=
  g ← gets gridOptionsWrapper;
  if negb (isRowModelVirtual g) then mret tt else
  addEventListeners ;;
  setDatasource (getDatasource g).

Definition run_destroyFunction (f : DestroyFunction) : M unit :=
  match f with
  | removeListeners =>
      eventService_removeEventListener EVENT_FILTER_CHANGED onFilterChangedListener ;;
      eventService_removeEventListener EVENT_SORT_CHANGED onSortChangedListener
  end.

(** [destroy()], lines 63-66. *)
Definition destroy : M unit :=
  fs ← gets (λ w, destroyFunctions (this w));
  foldr (λ f k, run_destroyFunction f ;; k) (mret tt) fs.

(** [isEmpty()] and [isRowsToRender()], lines 102-108. *)
Definition isEmpty : M bool := gets (λ w, Utils.missing (virtualPageCache (this w))).

Definition isRowsToRender : M bool := gets (λ w, Utils.exists_ (virtualPageCache (this w))).

(** [this.virtualPageCache.method(...)]: the method runs on the live cache,
    which is left as the method returns it. *)
Definition on_cache {A : Type} (method : VirtualPageCache → A * VirtualPageCache)
    (c : VirtualPageCache) : M A :=
  λ w, ((method c).1, set_this (set_virtualPageCache (some (method c).2)) w).

(** [getRow(rowIndex)], lines 182-184. *)
Definition getRow (rowIndex : number) : M (maybe RowNode) :=
  c ← gets (λ w, virtualPageCache (this w));
  match c with
  | some c => on_cache (cache_getRow rowIndex) c
  | _ => mret null
  end.

(** [forEachNode(callback)], lines 186-190: the answer is the sequence of
    [callback(rowNode, index)] invocations. *)
Definition forEachNode : M (list (maybe RowNode * number)) :=
  c ← gets (λ w, virtualPageCache (this w));
  match c with
  | some c => on_cache cache_forEachNode c
  | _ => mret []
  end.

(** [getRowCombinedHeight()], lines 192-194. *)
Definition getRowCombinedHeight : M number :=
  c ← gets (λ w, virtualPageCache (this w));
  match c with
  | some c => on_cache cache_getRowCombinedHeight c
  | _ => mret (num 0)
  end.

(** [getRowIndexAtPixel(pixel)], lines 196-198. *)
Definition getRowIndexAtPixel (pixel : number) : M number :=
  c ← gets (λ w, virtualPageCache (this w));
  match c with
  | some c => on_cache (cache_getRowIndexAtPixel pixel) c
  | _ => mret (num (-1))
  end.

(** [getRowCount()], lines 200-202. *)
Definition getRowCount : M number :=
  c ← gets (λ w, virtualPageCache (this w));
  match c with
  | some c => on_cache cache_getRowCount c
  | _ => mret (num 0)
  end.

(** [insertItemsAtIndex], [removeItems] and [addItems], lines 204-214. *)
Definition insertItemsAtIndex (index : number) (items : list any) : M unit :=
  console_log "not yet supported".

Definition removeItems (rowNodes : list RowNode) : M unit :=
  console_log "not yet supported".

Definition addItems (items : list any) : M unit :=
  console_log "not yet supported".

(** ** Runs

    What can happen to a row model: the grid calls one of its methods, an
    event reaches one of its two listeners, or something outside changes a
    collaborator (the application sets a grid option, the user edits a filter,
    a sort or the selection). *)

Inductive Action : Type :=
| Init
| Destroy
| SetDatasource (ds : maybe IDataSource)
| FilterChanged
| SortChanged
| IsEmpty
| IsRowsToRender
| GetRow (rowIndex : number)
| ForEachNode
| GetRowCombinedHeight
| GetRowIndexAtPixel (pixel : number)
| GetRowCount
| InsertItemsAtIndex (index : number) (items : list any)
| RemoveItems (rowNodes : list RowNode)
| AddItems (items : list any)
| ChangeGridOptions (g : GridOptionsWrapper)
| ChangeFilterModel (f : FilterModel)
| ChangeSortModel (s : SortModel)
| ChangeSelection (s : gset string).

Definition step (a : Action) (w : World) : World :=
  match a with
  | Init => (init w).2
  | Destroy => (destroy w).2
  | SetDatasource ds => (setDatasource ds w).2
  | FilterChanged => (onFilterChanged w).2
  | SortChanged => (onSortChanged w).2
  | IsEmpty => (isEmpty w).2
  | IsRowsToRender => (isRowsToRender w).2
  | GetRow rowIndex => (getRow rowIndex w).2
  | ForEachNode => (forEachNode w).2
  | GetRowCombinedHeight => (getRowCombinedHeight w).2
  | GetRowIndexAtPixel pixel => (getRowIndexAtPixel pixel w).2
  | GetRowCount => (getRowCount w).2
  | InsertItemsAtIndex index items => (insertItemsAtIndex index items w).2
  | RemoveItems rowNodes => (removeItems rowNodes w).2
  | AddItems items => (addItems items w).2
  | ChangeGridOptions g => set_gridOptionsWrapper g w
  | ChangeFilterModel f => set_filterManager f w
  | ChangeSortModel s => set_sortController s w
  | ChangeSelection s => set_selectionController s w
  end.

Fixpoint run (acts : list Action) (w : World) : World :=
  match acts with
  | [] => w
  | a :: acts => run acts (step a w)
  end.

(** Whether action [a], taken in [w], hands the row model a datasource:
    [setDatasource] with an object, or [init] of a virtual row model whose
    grid options carry one. *)
Definition hands_datasource (a : Action) (w : World) : bool :=
  match a with
  | SetDatasource ds => truthy ds
  | Init => isRowModelVirtual (gridOptionsWrapper w) && truthy (getDatasource (gridOptionsWrapper w))
  | _ => false
  end.

(** No action of the run hands over a datasource. *)
Fixpoint no_datasource_set (acts : list Action) (w : World) : bool :=
  match acts with
  | [] => true
  | a :: acts => negb (hands_datasource a w) && no_datasource_set acts (step a w)
  end.

(** The events dispatched by a sequence of calls, in order. *)
Definition dispatched (calls : list Call) : list Event :=
  omap (λ c, match c with DispatchEvent e => Some e | _ => None end) calls.

(** The calls other than console output. *)
Definition is_console (c : Call) : bool :=
  match c with
  | ConsoleError _ | ConsoleLog _ => true
  | _ => false
  end.

Definition without_console (calls : list Call) : list Call :=
  filter (λ c, is_console c = false) calls.

(** ** Notions used in the statements *)

(** The world in which [reset] calls [resetCache]: the selection was emptied
    unless the application supplies row ids. *)
Definition after_selection (w : World) : World :=
  if Utils.exists_ (getRowNodeIdFunc (gridOptionsWrapper w)) then w
  else set_trace (trace w ++ [SelectionReset]) (set_selectionController ∅ w).

(** The state in which the row model waits for its datasource. *)
Definition no_datasource (w : World) : Prop :=
  Utils.missing (this_datasource (this w)) = true ∧
  truthy (virtualPageCache (this w)) = false.

(** The changes that happen outside the row model to what a snapshot reads. *)
Definition changes_configuration (a : Action) : bool :=
  match a with
  | ChangeGridOptions _ | ChangeFilterModel _ | ChangeSortModel _ => true
  | _ => false
  end.

(** [queried c c']: one query method of the cache, run on [c], leaves [c']. *)
Inductive queried (c : VirtualPageCache) : VirtualPageCache → Prop :=
| queried_getRow (rowIndex : number) : queried c (cache_getRow rowIndex c).2
| queried_forEachNode : queried c (cache_forEachNode c).2
| queried_getRowCombinedHeight : queried c (cache_getRowCombinedHeight c).2
| queried_getRowIndexAtPixel (pixel : number) : queried c (cache_getRowIndexAtPixel pixel c).2
| queried_getRowCount : queried c (cache_getRowCount c).2.

(** The spec's table: an unset maxPagesInCache means unbounded. *)
Definition unbounded (maxPages : number) : bool := Utils.missing maxPages.

(** ** Notions used in the statements about runs *)

(** The listener registrations among a sequence of calls, in order. *)
Definition added (calls : list Call) : list (Event * Listener) :=
  omap (λ c, match c with AddEventListener e l => Some (e, l) | _ => None end) calls.

(** The listener removals among a sequence of calls, in order. *)
Definition removed (calls : list Call) : list (Event * Listener) :=
  omap (λ c, match c with RemoveEventListener e l => Some (e, l) | _ => None end) calls.

(** The listeners that the closures on [destroyFunctions] remove when they
    run: each closure stands for one call of [addEventListeners]. *)
Definition listeners_of (fs : list DestroyFunction) : list (Event * Listener) :=
  flat_map (λ _ : DestroyFunction,
              [(EVENT_FILTER_CHANGED, onFilterChangedListener);
               (EVENT_SORT_CHANGED, onSortChangedListener)]) fs.

(** The settings of the caches constructed by a sequence of calls, in order. *)
Definition constructed (calls : list Call) : list CacheParams :=
  omap (λ c, match c with CacheNew cacheSettings => Some cacheSettings | _ => None end) calls.

(** How many calls of one kind a sequence holds. *)
Definition count (kind : Call → bool) (calls : list Call) : nat :=
  length (List.filter kind calls).

Definition is_CacheNew (c : Call) : bool :=
  match c with CacheNew _ => true | _ => false end.

Definition is_CacheDestroy (c : Call) : bool :=
  match c with CacheDestroy => true | _ => false end.

Definition is_WireBean (c : Call) : bool :=
  match c with WireBean => true | _ => false end.

Definition is_SelectionReset (c : Call) : bool :=
  match c with SelectionReset => true | _ => false end.

Definition is_ConsoleError (c : Call) : bool :=
  match c with ConsoleError _ => true | _ => false end.

(** Console output and listener bookkeeping: the calls that touch neither a
    cache, nor the selection, nor the event bus. *)
Definition is_quiet (c : Call) : bool :=
  match c with
  | ConsoleError _ | ConsoleLog _ | AddEventListener _ _ | RemoveEventListener _ _ => true
  | _ => false
  end.

(** The calls of a reset that goes through, as [reset] and [resetCache] make
    them in world [w]. *)
Definition reset_calls (w : World) : list Call :=
  (if Utils.exists_ (getRowNodeIdFunc (gridOptionsWrapper w)) then [] else [SelectionReset])
  ++ (if truthy (virtualPageCache (this w)) then [CacheDestroy] else [])
  ++ [CacheNew (resetCache_cacheSettings w); WireBean; DispatchEvent EVENT_MODEL_UPDATED].

(** Settings a cache can work with: a datasource object, and the four
    numbers that [resetCache] checks in range ([paginationInitialRowCount]
    may also be the default 0). *)
Definition valid_settings (cacheSettings : CacheParams) : Prop :=
  truthy (datasource cacheSettings) = true ∧
  ge (maxConcurrentDatasourceRequests cacheSettings) 1 = true ∧
  ge (pageSize cacheSettings) 1 = true ∧
  ge (paginationOverflowSize cacheSettings) 1 = true ∧
  (ge (paginationInitialRowCount cacheSettings) 1 = true ∨
   paginationInitialRowCount cacheSettings = num 0).

(** How many of the four deprecated fields a datasource object carries. *)
Definition deprecated_fields (ds : IDataSource) : nat :=
  length (List.filter Utils.exists_any
            [ds_maxConcurrentRequests ds; ds_maxPagesInCache ds;
             ds_overflowSize ds; ds_pageSize ds]).

(** The actions that come from outside the row model. *)
Definition is_environment (a : Action) : bool :=
  match a with
  | ChangeGridOptions _ | ChangeFilterModel _ | ChangeSortModel _ | ChangeSelection _ => true
  | _ => false
  end.

(** The calls of [destroy()] for the closures [fs]. *)
Definition destroy_calls (fs : list DestroyFunction) : list Call :=
  flat_map (λ _ : DestroyFunction,
              [RemoveEventListener EVENT_FILTER_CHANGED onFilterChangedListener;
               RemoveEventListener EVENT_SORT_CHANGED onSortChangedListener]) fs.

(** The actions that can end in a reset: [init], [setDatasource] and the two
    listeners. *)
Definition may_reset (a : Action) : bool :=
  match a with
  | Init | SetDatasource _ | FilterChanged | SortChanged => true
  | _ => false
  end.

(** A step from [w] to [w'] that makes the calls [quiet] and nothing else:
    caches and events are left alone, [extra] closures are pushed, and
    unless the action comes from outside the collaborators keep their state. *)
Definition quiet_step (a : Action) (w w' : World) (quiet : list Call)
    (extra : list DestroyFunction) : Prop :=
  trace w' = trace w ++ quiet ∧
  abandoned w' = abandoned w ∧
  truthy (virtualPageCache (this w')) = truthy (virtualPageCache (this w)) ∧
  destroyFunctions (this w') = destroyFunctions (this w) ++ extra ∧
  (is_environment a = false →
     gridOptionsWrapper w' = gridOptionsWrapper w ∧
     filterManager w' = filterManager w ∧
     sortController w' = sortController w ∧
     selectionController w' = selectionController w).

(** A step from [w] to [w'] that makes the calls [quiet], assigns a
    datasource object at most, and then runs a reset that goes through. *)
Definition resetting_step (a : Action) (w w' : World) (quiet : list Call)
    (extra : list DestroyFunction) : Prop :=
  may_reset a = true ∧
  ∃ (w1 : World) (ds : IDataSource),
    w' = (reset w1).2 ∧
    this_datasource (this w1) = some ds ∧
    virtualPageCache (this w1) = virtualPageCache (this w) ∧
    destroyFunctions (this w1) = destroyFunctions (this w) ++ extra ∧
    gridOptionsWrapper w1 = gridOptionsWrapper w ∧
    filterManager w1 = filterManager w ∧
    sortController w1 = sortController w ∧
    selectionController w1 = selectionController w ∧
    abandoned w1 = abandoned w ∧
    trace w1 = trace w ++ quiet.

Definition step_shaped (a : Action) (w w' : World) : Prop :=
  ∃ (quiet : list Call) (extra : list DestroyFunction),
    Forall (λ c, is_quiet c = true) quiet ∧
    added quiet = listeners_of extra ∧
    (quiet_step a w w' quiet extra ∨ resetting_step a w w' quiet extra).

(** The books of a row model balance: every cache constructed so far is
    either the live one or was destroyed and abandoned, each was wired, and
    each construction was followed by one model-updated event. *)
Definition accounted (w : World) : Prop :=
  count is_CacheNew (trace w) =
    length (abandoned w) + (if truthy (virtualPageCache (this w)) then 1 else 0) ∧
  count is_CacheDestroy (trace w) = length (abandoned w) ∧
  count is_WireBean (trace w) = count is_CacheNew (trace w) ∧
  dispatched (trace w) = replicate (count is_CacheNew (trace w)) EVENT_MODEL_UPDATED.

End RowModel.

(** ** A grid to run the model on

    Row ids, filter and sort descriptors are strings here; the two function
    types carry no information.  The cache stand-in knows no row: it is
    only there so that the queries can run; its wiring starts the request for
    the first page. *)

Definition DemoWorld : Type := @World string string string unit unit.

#[global] Instance demo_cache : @VirtualPageCacheMethods string string string unit :=
  {| cache_getRow := λ _ c, (null, c);
     cache_forEachNode := λ c, ([], c);
     cache_getRowCombinedHeight := λ c, (num 0, c);
     cache_getRowIndexAtPixel := λ _ c, (num (-1), c);
     cache_getRowCount := λ c, (rowCountEstimate c, c);
     cache_wireBean := λ c,
       {| cacheParams := cacheParams c;
          pages := {[ 0%Z := {| pageNumber := 0; state := Loading; rows := ∅;
                                lastAccessed := 0 |} ]};
          rowCountEstimate := rowCountEstimate c;
          activeRequestCount := 1;
          destroyed := false |} |}.

(** A datasource written for a version before 5.1: it still carries two of
    the deprecated fields. *)
Definition demo_datasource : @IDataSource unit :=
  {| getRows := tt;
     rowCount := undefined;
     ds_maxConcurrentRequests := any_number 4;
     ds_maxPagesInCache := any_undefined;
     ds_overflowSize := any_string EmptyString;
     ds_pageSize := any_number 50 |}.

(** The same datasource brought up to date: no deprecated field left. *)
Definition demo_datasource_clean : @IDataSource unit :=
  {| getRows := tt;
     rowCount := undefined;
     ds_maxConcurrentRequests := any_undefined;
     ds_maxPagesInCache := any_undefined;
     ds_overflowSize := any_undefined;
     ds_pageSize := any_undefined |}.

(** Grid options with every kind of out-of-range value: a zero, a fraction
    below one, an unset option. *)
Definition demo_options : @GridOptionsWrapper unit unit :=
  {| isRowModelVirtual := true;
     getDatasource := undefined;
     isEnableServerSideFilter := true;
     isEnableServerSideSorting := false;
     getRowNodeIdFunc := undefined;
     getMaxConcurrentDatasourceRequests := num 0;
     getPaginationOverflowSize := num 5;
     getPaginationInitialRowCount := undefined;
     getMaxPagesInCache := num 0;
     getPaginationPageSize := num 0.5;
     getRowHeightAsNumber := num 25 |}.

Definition demo_options' : @GridOptionsWrapper unit unit :=
  {| isRowModelVirtual := true;
     getDatasource := undefined;
     isEnableServerSideFilter := true;
     isEnableServerSideSorting := false;
     getRowNodeIdFunc := some tt;
     getMaxConcurrentDatasourceRequests := num 3;
     getPaginationOverflowSize := null;
     getPaginationInitialRowCount := num 1000;
     getMaxPagesInCache := undefined;
     getPaginationPageSize := num 200;
     getRowHeightAsNumber := num 30 |}.

(** The row model right after construction, one row selected in the grid. *)
Definition demo_new : DemoWorld :=
  {| this := new_Fields;
     gridOptionsWrapper := demo_options;
     filterManager := "age > 30";
     sortController := "name asc";
     selectionController := {["row-7"]};
     abandoned := [];
     trace := [] |}.

(** The same with the datasource field assigned, before any reset. *)
Definition demo_waiting : DemoWorld := set_this (set_datasource (some demo_datasource)) demo_new.

(** After [setDatasource]: a cache is live. *)
Definition demo_running : DemoWorld := (setDatasource (some demo_datasource) demo_new).2.

(** What the grid does before the application hands over a datasource. *)
Definition demo_early_actions : list (@Action string string string unit unit) :=
  [Init; FilterChanged; GetRow (num 3); SetDatasource null; SortChanged;
   ChangeSelection {["row-1"]}; AddItems [any_object]; ForEachNode; Destroy].

Definition DemoAction : Type := @Action string string string unit unit.

(** A longer day: the row model is initialised without a datasource, gets
    one, is queried, sees a filter and a sort change, loses the datasource,
    sees another filter change, is destroyed and gets a datasource again. *)
Definition demo_busy_actions : list DemoAction :=
  [Init; SetDatasource (some demo_datasource); GetRow (num 3); FilterChanged;
   SortChanged; SetDatasource null; FilterChanged; AddItems [any_object];
   Destroy; SetDatasource (some demo_datasource_clean)].

(** * Properties *)

Section Properties.

Context {RowNode FilterModel SortModel GetRows RowNodeIdFunc : Type}.
Context `{!@VirtualPageCacheMethods RowNode FilterModel SortModel GetRows}.

#[local] Abbreviation World := (@World RowNode FilterModel SortModel GetRows RowNodeIdFunc).
#[local] Abbreviation Action := (@Action RowNode FilterModel SortModel GetRows RowNodeIdFunc).
#[local] Abbreviation Call := (@Call FilterModel SortModel GetRows).
#[local] Abbreviation IDataSource := (@IDataSource GetRows).
#[local] Abbreviation VirtualPageCache := (@VirtualPageCache RowNode FilterModel SortModel GetRows).
#[local] Abbreviation new_VirtualPageCache :=
  (@new_VirtualPageCache RowNode FilterModel SortModel GetRows).

(** ** Reasoning about the methods *)

Ltac unfold_calls :=
  unfold selectionController_reset, context_wireBean, eventService_dispatchEvent,
    eventService_addEventListener, eventService_removeEventListener,
    console_error, console_log in *.

Ltac unfold_M :=
  unfold mbind, M_bind, mret, M_ret, when, call, on_cache, gets, modify in *.

Ltac unfold_set :=
  unfold set_this, set_gridOptionsWrapper, set_filterManager, set_sortController,
    set_selectionController, set_abandoned, set_trace, set_destroyFunctions,
    set_virtualPageCache, set_datasource in *.

#[local] Arguments wired : simpl never.

Ltac run_M := unfold_calls; unfold_M; unfold_set; cbn.

(** Case analysis on the four comparisons of [resetCache], in source order. *)
Ltac settings_cases w :=
  unfold resetCache_cacheSettings; cbn;
  destruct (ge (getMaxConcurrentDatasourceRequests (gridOptionsWrapper w)) 1); cbn;
  destruct (ge (getPaginationPageSize (gridOptionsWrapper w)) 1); cbn;
  destruct (ge (getPaginationInitialRowCount (gridOptionsWrapper w)) 1); cbn;
  destruct (ge (getPaginationOverflowSize (gridOptionsWrapper w)) 1); cbn.

(** Wiring leaves the settings of a cache as they are. *)
Lemma wired_cacheParams (c : VirtualPageCache) : cacheParams (wired c) = cacheParams c.
Proof. reflexivity. Qed.

(** The snapshot reads the datasource field, the grid options and the two
    descriptors, and nothing else. *)
Lemma cacheSettings_reads (w1 w2 : World) :
  this_datasource (this w1) = this_datasource (this w2) →
  gridOptionsWrapper w1 = gridOptionsWrapper w2 →
  filterManager w1 = filterManager w2 →
  sortController w1 = sortController w2 →
  resetCache_cacheSettings w1 = resetCache_cacheSettings w2.
Proof.
  intros Hd Hg Hf Hs. unfold resetCache_cacheSettings.
  rewrite Hd, Hg, Hf, Hs. reflexivity.
Qed.

(** What [resetCache] does to each part of the world. *)
Lemma resetCache_world (w : World) :
  resetCache w =
  (tt,
   {| this := set_virtualPageCache
                (some (wired (new_VirtualPageCache (resetCache_cacheSettings w)))) (this w);
      gridOptionsWrapper := gridOptionsWrapper w;
      filterManager := filterManager w;
      sortController := sortController w;
      selectionController := selectionController w;
      abandoned :=
        match virtualPageCache (this w) with
        | some old => abandoned w ++ [VirtualPageCache_destroy old]
        | _ => abandoned w
        end;
      trace :=
        (match virtualPageCache (this w) with
         | some old => trace w ++ [CacheDestroy]
         | _ => trace w
         end) ++ [CacheNew (resetCache_cacheSettings w)] ++ [WireBean] |}).
Proof.
  unfold resetCache. run_M.
  destruct (virtualPageCache (this w)); cbn; rewrite <- ?app_assoc; reflexivity.
Qed.

(** A reset without a datasource returns at once. *)
Lemma reset_missing (w : World) :
  Utils.missing (this_datasource (this w)) = true → reset w = (tt, w).
Proof.
  intros Hm. unfold reset. unfold_M. cbn. rewrite Hm. reflexivity.
Qed.

(** A reset with a datasource: selection, then the cache, then the event. *)
Lemma reset_present (w : World) (ds : IDataSource) :
  this_datasource (this w) = some ds →
  reset w = eventService_dispatchEvent EVENT_MODEL_UPDATED (resetCache (after_selection w)).2.
Proof.
  intros Hd. unfold reset, after_selection. unfold_M. cbn. rewrite Hd. cbn.
  destruct (Utils.exists_ (getRowNodeIdFunc (gridOptionsWrapper w))); reflexivity.
Qed.

Lemma after_selection_cacheSettings (w : World) :
  resetCache_cacheSettings (after_selection w) = resetCache_cacheSettings w.
Proof.
  apply cacheSettings_reads; unfold after_selection;
    destruct (Utils.exists_ (getRowNodeIdFunc (gridOptionsWrapper w))); reflexivity.
Qed.

Lemma after_selection_this (w : World) : this (after_selection w) = this w.
Proof.
  unfold after_selection.
  destruct (Utils.exists_ (getRowNodeIdFunc (gridOptionsWrapper w))); reflexivity.
Qed.

(** The live cache after a reset with a datasource. *)
Lemma reset_cache (w : World) (ds : IDataSource) :
  this_datasource (this w) = some ds →
  virtualPageCache (this (reset w).2) =
  some (wired (new_VirtualPageCache (resetCache_cacheSettings w))).
Proof.
  intros Hd. rewrite (reset_present w ds Hd), resetCache_world.
  run_M. rewrite after_selection_cacheSettings. reflexivity.
Qed.

(** The four defaults, one field at a time. *)
Lemma cacheSettings_maxConcurrentDatasourceRequests (w : World) :
  maxConcurrentDatasourceRequests (resetCache_cacheSettings w) =
  if ge (getMaxConcurrentDatasourceRequests (gridOptionsWrapper w)) 1
  then getMaxConcurrentDatasourceRequests (gridOptionsWrapper w) else num 2.
Proof.
  settings_cases w; reflexivity.
Qed.

Lemma cacheSettings_pageSize (w : World) :
  pageSize (resetCache_cacheSettings w) =
  if ge (getPaginationPageSize (gridOptionsWrapper w)) 1
  then getPaginationPageSize (gridOptionsWrapper w) else num 100.
Proof.
  settings_cases w; reflexivity.
Qed.

Lemma cacheSettings_paginationInitialRowCount (w : World) :
  paginationInitialRowCount (resetCache_cacheSettings w) =
  if ge (getPaginationInitialRowCount (gridOptionsWrapper w)) 1
  then getPaginationInitialRowCount (gridOptionsWrapper w) else num 0.
Proof.
  settings_cases w; reflexivity.
Qed.

Lemma cacheSettings_paginationOverflowSize (w : World) :
  paginationOverflowSize (resetCache_cacheSettings w) =
  if ge (getPaginationOverflowSize (gridOptionsWrapper w)) 1
  then getPaginationOverflowSize (gridOptionsWrapper w) else num 1.
Proof.
  settings_cases w; reflexivity.
Qed.

(** The fields that [resetCache] copies and never touches again. *)
Lemma cacheSettings_copied (w : World) :
  datasource (resetCache_cacheSettings w) = this_datasource (this w) ∧
  filterModel (resetCache_cacheSettings w) = filterManager w ∧
  sortModel (resetCache_cacheSettings w) = sortController w ∧
  maxPagesInCache (resetCache_cacheSettings w) = getMaxPagesInCache (gridOptionsWrapper w) ∧
  rowHeight (resetCache_cacheSettings w) = getRowHeightAsNumber (gridOptionsWrapper w) ∧
  lastAccessedSequence (resetCache_cacheSettings w) = new_NumberSequence.
Proof.
  settings_cases w; repeat split; reflexivity.
Qed.

(** The calls a reset with a datasource makes, in order. *)
Lemma reset_trace (w : World) (ds : IDataSource) :
  this_datasource (this w) = some ds →
  trace (reset w).2 =
  trace w
  ++ ((if Utils.exists_ (getRowNodeIdFunc (gridOptionsWrapper w)) then [] else [SelectionReset])
      ++ (if truthy (virtualPageCache (this w)) then [CacheDestroy] else []))
  ++ [CacheNew (resetCache_cacheSettings w); WireBean; DispatchEvent EVENT_MODEL_UPDATED].
Proof.
  intros Hd. rewrite (reset_present w ds Hd), resetCache_world.
  run_M. rewrite after_selection_cacheSettings, after_selection_this.
  unfold after_selection.
  destruct (Utils.exists_ (getRowNodeIdFunc (gridOptionsWrapper w)));
    destruct (virtualPageCache (this w)); cbn;
    rewrite <- ?app_assoc; reflexivity.
Qed.

Lemma dispatched_app (l1 l2 : list Call) :
  dispatched (l1 ++ l2) = dispatched l1 ++ dispatched l2.
Proof. unfold dispatched. apply omap_app. Qed.

(** [checkForDeprecated] writes to the console and does nothing else. *)
Lemma checkForDeprecated_console (w : World) :
  ∃ errors : list Call,
    (checkForDeprecated w).2 = set_trace (trace w ++ errors) w ∧
    without_console errors = [].
Proof.
  destruct w as [t g f s sel ab tr].
  unfold checkForDeprecated. run_M.
  destruct (this_datasource t) as [| | ds];
    [exists []; cbn; rewrite app_nil_r; split; reflexivity ..|].
  destruct (Utils.exists_any (ds_maxConcurrentRequests ds));
    destruct (Utils.exists_any (ds_maxPagesInCache ds));
    destruct (Utils.exists_any (ds_overflowSize ds));
    destruct (Utils.exists_any (ds_pageSize ds)); cbn;
    rewrite <- ?app_assoc; cbn;
    (eexists; split; [reflexivity | reflexivity]) ||
    (exists []; rewrite app_nil_r; split; reflexivity).
Qed.

Lemma setDatasource_some (w : World) (ds : IDataSource) :
  setDatasource (some ds) w =
  reset (checkForDeprecated (set_this (set_datasource (some ds)) w)).2.
Proof. reflexivity. Qed.

(** After [setDatasource] with an object, the live cache is the one built
    from the snapshot of the world in which only the datasource field was
    assigned. *)
Lemma setDatasource_cache (w : World) (ds : IDataSource) :
  virtualPageCache (this (setDatasource (some ds) w).2) =
  some (wired (new_VirtualPageCache
                 (resetCache_cacheSettings (set_this (set_datasource (some ds)) w)))).
Proof.
  rewrite setDatasource_some.
  destruct (checkForDeprecated_console (set_this (set_datasource (some ds)) w))
    as (errors & -> & _).
  rewrite (reset_cache _ ds) by reflexivity.
  rewrite (cacheSettings_reads _ (set_this (set_datasource (some ds)) w)); reflexivity.
Qed.

(** ** The configuration snapshot *)

(** C1: in the configuration snapshot taken at a reset, pageSize becomes 100
    whenever the supplied value is not >= 1, maxConcurrentRequests becomes 2,
    overflowSize becomes 1 and initialRowCount becomes 0 under the same
    condition; a supplied value that is >= 1 reaches the cache unchanged.
    The snapshot is the one the new cache is constructed with, and the
    live cache is that cache, wired. *)
Theorem C1_snapshot_defaults (w : World) (ds : IDataSource) :
  this_datasource (this w) = some ds →
  ∃ c : VirtualPageCache,
    virtualPageCache (this (reset w).2) = some c ∧
    c = wired (new_VirtualPageCache (cacheParams c)) ∧
    CacheNew (cacheParams c) ∈ trace (reset w).2 ∧
    (ge (getPaginationPageSize (gridOptionsWrapper w)) 1 = false →
       pageSize (cacheParams c) = num 100) ∧
    (ge (getPaginationPageSize (gridOptionsWrapper w)) 1 = true →
       pageSize (cacheParams c) = getPaginationPageSize (gridOptionsWrapper w)) ∧
    (ge (getMaxConcurrentDatasourceRequests (gridOptionsWrapper w)) 1 = false →
       maxConcurrentDatasourceRequests (cacheParams c) = num 2) ∧
    (ge (getMaxConcurrentDatasourceRequests (gridOptionsWrapper w)) 1 = true →
       maxConcurrentDatasourceRequests (cacheParams c) =
       getMaxConcurrentDatasourceRequests (gridOptionsWrapper w)) ∧
    (ge (getPaginationOverflowSize (gridOptionsWrapper w)) 1 = false →
       paginationOverflowSize (cacheParams c) = num 1) ∧
    (ge (getPaginationOverflowSize (gridOptionsWrapper w)) 1 = true →
       paginationOverflowSize (cacheParams c) =
       getPaginationOverflowSize (gridOptionsWrapper w)) ∧
    (ge (getPaginationInitialRowCount (gridOptionsWrapper w)) 1 = false →
       paginationInitialRowCount (cacheParams c) = num 0) ∧
    (ge (getPaginationInitialRowCount (gridOptionsWrapper w)) 1 = true →
       paginationInitialRowCount (cacheParams c) =
       getPaginationInitialRowCount (gridOptionsWrapper w)).
Proof.
  intros Hd.
  exists (wired (new_VirtualPageCache (resetCache_cacheSettings w))).
  split; [exact (reset_cache w ds Hd) |].
  split; [reflexivity |].
  split.
  { rewrite (reset_trace w ds Hd), wired_cacheParams. cbn [cacheParams new_VirtualPageCache].
    do 2 (apply elem_of_app; right). constructor. }
  rewrite wired_cacheParams. cbn [cacheParams new_VirtualPageCache].
  rewrite cacheSettings_pageSize, cacheSettings_maxConcurrentDatasourceRequests,
    cacheSettings_paginationOverflowSize, cacheSettings_paginationInitialRowCount.
  repeat split; intros ->; reflexivity.
Qed.

(** C2, as the code has it: maxPagesInCache goes into the snapshot exactly as
    the grid options supply it, whatever its value.  An unset value stays
    unset, and a value that is not >= 1 is handed to the cache as it is.
    The reset reports nothing on the console. *)
Theorem C2_maxPagesInCache_copied (w : World) (ds : IDataSource) :
  this_datasource (this w) = some ds →
  ∃ c : VirtualPageCache,
    virtualPageCache (this (reset w).2) = some c ∧
    maxPagesInCache (cacheParams c) = getMaxPagesInCache (gridOptionsWrapper w) ∧
    (Utils.missing (getMaxPagesInCache (gridOptionsWrapper w)) = true →
       Utils.missing (maxPagesInCache (cacheParams c)) = true) ∧
    ∃ calls : list Call,
      trace (reset w).2 = trace w ++ calls ∧ without_console calls = calls.
Proof.
  intros Hd.
  exists (wired (new_VirtualPageCache (resetCache_cacheSettings w))).
  split; [exact (reset_cache w ds Hd) |].
  rewrite wired_cacheParams. cbn [cacheParams new_VirtualPageCache].
  destruct (cacheSettings_copied w) as (_ & _ & _ & Hmax & _).
  split; [exact Hmax |].
  split; [rewrite Hmax; tauto |].
  eexists. split; [exact (reset_trace w ds Hd) |].
  destruct (Utils.exists_ (getRowNodeIdFunc (gridOptionsWrapper w)));
    destruct (truthy (virtualPageCache (this w))); reflexivity.
Qed.

(** ** Before a datasource is set *)

Lemma destroyFunctions_this (fs : list DestroyFunction) (w : World) :
  this (foldr (λ f k, run_destroyFunction f ;; k) (mret tt) fs w).2 = this w.
Proof.
  revert w. induction fs as [| f fs IH]; intros w; [reflexivity |].
  cbn [foldr]. destruct f. unfold run_destroyFunction.
  unfold_calls. unfold mbind, M_bind at 1. rewrite IH. reflexivity.
Qed.

Lemma destroy_this (w : World) : this (destroy w).2 = this w.
Proof. unfold destroy. unfold mbind, M_bind, gets. cbn. apply destroyFunctions_this. Qed.

Lemma onFilterChanged_missing (w : World) :
  Utils.missing (this_datasource (this w)) = true → onFilterChanged w = (tt, w).
Proof.
  intros Hm. unfold onFilterChanged. unfold_M. cbn.
  destruct (isEnableServerSideFilter (gridOptionsWrapper w));
    [exact (reset_missing w Hm) | reflexivity].
Qed.

Lemma onSortChanged_missing (w : World) :
  Utils.missing (this_datasource (this w)) = true → onSortChanged w = (tt, w).
Proof.
  intros Hm. unfold onSortChanged. unfold_M. cbn.
  destruct (isEnableServerSideSorting (gridOptionsWrapper w));
    [exact (reset_missing w Hm) | reflexivity].
Qed.

(** Without a cache every query answers with its default and changes nothing. *)
Lemma queries_without_cache (w : World) :
  truthy (virtualPageCache (this w)) = false →
  (∀ rowIndex, getRow rowIndex w = (null, w)) ∧
  getRowCount w = (num 0, w) ∧
  getRowCombinedHeight w = (num 0, w) ∧
  (∀ pixel, getRowIndexAtPixel pixel w = (num (-1), w)) ∧
  forEachNode w = ([], w).
Proof.
  intros Hc.
  unfold getRow, getRowCount, getRowCombinedHeight, getRowIndexAtPixel, forEachNode.
  unfold_M. cbn.
  destruct (virtualPageCache (this w)); try discriminate Hc; repeat split.
Qed.

(** An action that hands over no datasource keeps the row model waiting. *)
Lemma step_no_datasource (a : Action) (w : World) :
  hands_datasource a w = false → no_datasource w → no_datasource (step a w).
Proof.
  intros Ha [Hd Hc]. pose proof (queries_without_cache w Hc) as (Hrow & Hcnt & Hh & Hpx & Hfe).
  destruct a; cbn [step hands_datasource] in *.
  - (* init *)
    unfold init. unfold_M. cbn.
    destruct (isRowModelVirtual (gridOptionsWrapper w)); cbn in *; [| split; assumption].
    unfold addEventListeners, setDatasource. run_M. rewrite Ha. cbn.
    split; [| exact Hc].
    destruct (getDatasource (gridOptionsWrapper w)); [reflexivity | reflexivity | discriminate Ha].
  - (* destroy *)
    unfold no_datasource. rewrite destroy_this. split; assumption.
  - (* setDatasource *)
    unfold setDatasource. run_M. rewrite Ha. cbn.
    split; [| exact Hc]. destruct ds; [reflexivity | reflexivity | discriminate Ha].
  - rewrite (onFilterChanged_missing w Hd). split; assumption.
  - rewrite (onSortChanged_missing w Hd). split; assumption.
  - split; assumption.
  - split; assumption.
  - rewrite Hrow. split; assumption.
  - rewrite Hfe. split; assumption.
  - rewrite Hh. split; assumption.
  - rewrite Hpx. split; assumption.
  - rewrite Hcnt. split; assumption.
  - split; assumption.
  - split; assumption.
  - split; assumption.
  - split; assumption.
  - split; assumption.
  - split; assumption.
  - split; assumption.
Qed.

Lemma run_no_datasource (acts : list Action) (w : World) :
  no_datasource_set acts w = true → no_datasource w → no_datasource (run acts w).
Proof.
  revert w. induction acts as [| a acts IH]; intros w Hrun Hw; [exact Hw |].
  cbn [run no_datasource_set] in *. apply andb_prop in Hrun as [Ha Hrest].
  apply negb_true_iff in Ha. apply IH; [exact Hrest |].
  apply step_no_datasource; assumption.
Qed.

(** C3: while no datasource has been set no cache exists, and every public
    operation is a no-op: getRow answers null for every index, getRowCount
    and getRowCombinedHeight answer 0, getRowIndexAtPixel answers -1 for
    every pixel, forEachNode never invokes its callback, and a reset (also
    through a sort or filter change) leaves the whole state as it was. *)
Theorem C3_no_datasource_no_op (w0 : World) (acts : list Action) :
  this w0 = new_Fields →
  no_datasource_set acts w0 = true →
  Utils.missing (this_datasource (this (run acts w0))) = true ∧
  Utils.missing (virtualPageCache (this (run acts w0))) = true ∧
  (∀ rowIndex, getRow rowIndex (run acts w0) = (null, run acts w0)) ∧
  getRowCount (run acts w0) = (num 0, run acts w0) ∧
  getRowCombinedHeight (run acts w0) = (num 0, run acts w0) ∧
  (∀ pixel, getRowIndexAtPixel pixel (run acts w0) = (num (-1), run acts w0)) ∧
  forEachNode (run acts w0) = ([], run acts w0) ∧
  reset (run acts w0) = (tt, run acts w0) ∧
  onSortChanged (run acts w0) = (tt, run acts w0) ∧
  onFilterChanged (run acts w0) = (tt, run acts w0).
Proof.
  intros Hnew Hrun.
  assert (no_datasource w0) as Hw0 by (unfold no_datasource; rewrite Hnew; split; reflexivity).
  destruct (run_no_datasource acts w0 Hrun Hw0) as [Hd Hc].
  pose proof (queries_without_cache _ Hc) as (Hrow & Hcnt & Hh & Hpx & Hfe).
  split; [exact Hd |].
  split; [destruct (virtualPageCache (this (run acts w0))); [reflexivity | reflexivity | discriminate Hc] |].
  repeat (split; [assumption |]).
  split; [exact (reset_missing _ Hd) |].
  split; [exact (onSortChanged_missing _ Hd) | exact (onFilterChanged_missing _ Hd)].
Qed.

(** ** Resets *)

Lemma reset_cache_cases (w : World) :
  virtualPageCache (this (reset w).2) = virtualPageCache (this w) ∨
  ∃ cacheSettings : CacheParams,
    virtualPageCache (this (reset w).2) = some (wired (new_VirtualPageCache cacheSettings)).
Proof.
  destruct (this_datasource (this w)) as [| | ds] eqn:Hd.
  - left. rewrite reset_missing; [reflexivity | rewrite Hd; reflexivity].
  - left. rewrite reset_missing; [reflexivity | rewrite Hd; reflexivity].
  - right. eexists. exact (reset_cache w ds Hd).
Qed.

(** Whatever happens to the row model, its cache field afterwards holds
    what it held, or what one query left of it, or a newly constructed and
    wired cache. *)
Lemma step_cache_cases (a : Action) (w : World) :
  virtualPageCache (this (step a w)) = virtualPageCache (this w) ∨
  (∃ c c' : VirtualPageCache,
     virtualPageCache (this w) = some c ∧
     virtualPageCache (this (step a w)) = some c' ∧ queried c c') ∨
  (∃ cacheSettings : CacheParams,
     virtualPageCache (this (step a w)) =
     some (wired (new_VirtualPageCache cacheSettings))).
Proof.
  assert (∀ A (method : VirtualPageCache → A * VirtualPageCache) (dflt : A),
            (∀ c, queried c (method c).2) →
            let w' := ((c ← gets (λ w, virtualPageCache (this w));
                        match c with
                        | some c => on_cache method c
                        | _ => mret dflt
                        end) w).2 in
            virtualPageCache (this w') = virtualPageCache (this w) ∨
            (∃ c c' : VirtualPageCache,
               virtualPageCache (this w) = some c ∧
               virtualPageCache (this w') = some c' ∧ queried c c')) as Hquery.
  { intros A method dflt Hq. run_M.
    destruct (virtualPageCache (this w)) as [| | c] eqn:Hc; cbn; rewrite ?Hc; auto.
    right. exists c, (method c).2. auto. }
  assert (∀ ds : maybe IDataSource, ∀ w0 : World,
            virtualPageCache (this w0) = virtualPageCache (this w) →
            virtualPageCache (this (setDatasource ds w0).2) = virtualPageCache (this w) ∨
            ∃ cacheSettings : CacheParams,
              virtualPageCache (this (setDatasource ds w0).2) =
              some (wired (new_VirtualPageCache cacheSettings))) as Hset.
  { intros [| | ds] w0 Hw0; [left; exact Hw0 | left; exact Hw0 |].
    right. eexists. apply setDatasource_cache. }
  destruct a; cbn [step].
  - (* init *)
    unfold init. unfold mbind, M_bind, gets. cbn [fst snd].
    destruct (isRowModelVirtual (gridOptionsWrapper w)); cbn [negb]; [| left; reflexivity].
    destruct (Hset (getDatasource (gridOptionsWrapper w)) (addEventListeners w).2 eq_refl)
      as [Hsame | Hnew]; [left; exact Hsame | right; right; exact Hnew].
  - left. rewrite destroy_this. reflexivity.
  - destruct (Hset ds w eq_refl) as [Hsame | Hnew];
      [left; exact Hsame | right; right; exact Hnew].
  - unfold onFilterChanged. unfold mbind, M_bind, gets. cbn [fst snd].
    destruct (isEnableServerSideFilter (gridOptionsWrapper w)); [| left; reflexivity].
    destruct (reset_cache_cases w) as [Hsame | Hnew];
      [left; exact Hsame | right; right; exact Hnew].
  - unfold onSortChanged. unfold mbind, M_bind, gets. cbn [fst snd].
    destruct (isEnableServerSideSorting (gridOptionsWrapper w)); [| left; reflexivity].
    destruct (reset_cache_cases w) as [Hsame | Hnew];
      [left; exact Hsame | right; right; exact Hnew].
  - left; reflexivity.
  - left; reflexivity.
  - destruct (Hquery _ (cache_getRow rowIndex) null (λ c, queried_getRow c rowIndex)); auto.
  - destruct (Hquery _ cache_forEachNode [] queried_forEachNode); auto.
  - destruct (Hquery _ cache_getRowCombinedHeight (num 0) queried_getRowCombinedHeight); auto.
  - destruct (Hquery _ (cache_getRowIndexAtPixel pixel) (num (-1))
                (λ c, queried_getRowIndexAtPixel c pixel)); auto.
  - destruct (Hquery _ cache_getRowCount (num 0) queried_getRowCount); auto.
  - left; reflexivity.
  - left; reflexivity.
  - left; reflexivity.
  - left; reflexivity.
  - left; reflexivity.
  - left; reflexivity.
  - left; reflexivity.
Qed.

(** C4: a reset performed while a datasource is present destroys the cache
    that was live, if there was one, and puts in its place a cache newly
    constructed from a fresh snapshot and then wired.  The constructor is
    called once, with the snapshot; what the wiring makes of the cache it
    returns is the business of the cache, which keeps the snapshot as its
    settings.  Nothing of the old cache goes into the new one: the new
    cache is the same whatever the old cache was.  No method of the row model invalidates part of a
    cache: after any action the cache field holds what it held, or what one
    query of the cache left of it, or a newly constructed and wired cache. *)
Theorem C4_reset_replaces_cache (w : World) (ds : IDataSource) :
  this_datasource (this w) = some ds →
  virtualPageCache (this (reset w).2) =
    some (wired (new_VirtualPageCache (resetCache_cacheSettings w))) ∧
  cacheParams (wired (new_VirtualPageCache (resetCache_cacheSettings w))) =
    resetCache_cacheSettings w ∧
  constructed (drop (length (trace w)) (trace (reset w).2)) =
    [resetCache_cacheSettings w] ∧
  (∀ old : VirtualPageCache,
     virtualPageCache (this w) = some old →
     abandoned (reset w).2 = abandoned w ++ [VirtualPageCache_destroy old] ∧
     destroyed (VirtualPageCache_destroy old) = true ∧
     pages (VirtualPageCache_destroy old) = ∅ ∧
     CacheDestroy ∈ drop (length (trace w)) (trace (reset w).2)) ∧
  (truthy (virtualPageCache (this w)) = false →
     abandoned (reset w).2 = abandoned w) ∧
  (∀ other : maybe VirtualPageCache,
     virtualPageCache (this (reset (set_this (set_virtualPageCache other) w)).2) =
     virtualPageCache (this (reset w).2)) ∧
  (∀ a : Action,
     virtualPageCache (this (step a w)) = virtualPageCache (this w) ∨
     (∃ c c' : VirtualPageCache,
        virtualPageCache (this w) = some c ∧
        virtualPageCache (this (step a w)) = some c' ∧ queried c c') ∨
     (∃ cacheSettings : CacheParams,
        virtualPageCache (this (step a w)) =
        some (wired (new_VirtualPageCache cacheSettings)))).
Proof.
  intros Hd.
  split; [exact (reset_cache w ds Hd) |].
  split; [reflexivity |].
  split.
  { rewrite (reset_trace w ds Hd), drop_app_length.
    destruct (Utils.exists_ (getRowNodeIdFunc (gridOptionsWrapper w)));
      destruct (truthy (virtualPageCache (this w))); reflexivity. }
  split; [| split; [| split; [| intros a; apply step_cache_cases]]].
  - intros old Hold. split; [| split; [reflexivity | split; [reflexivity |]]].
    + rewrite (reset_present w ds Hd), resetCache_world. run_M.
      rewrite after_selection_this, Hold. unfold after_selection.
      destruct (Utils.exists_ (getRowNodeIdFunc (gridOptionsWrapper w))); reflexivity.
    + rewrite (reset_trace w ds Hd), drop_app_length, Hold. cbn [truthy].
      apply elem_of_app. left. apply elem_of_app. right. constructor.
  - intros Hnone. rewrite (reset_present w ds Hd), resetCache_world. run_M.
    rewrite after_selection_this. unfold after_selection.
    destruct (virtualPageCache (this w)); try discriminate Hnone;
      destruct (Utils.exists_ (getRowNodeIdFunc (gridOptionsWrapper w))); reflexivity.
  - intros other.
    rewrite (reset_cache w ds Hd).
    rewrite (reset_cache (set_this (set_virtualPageCache other) w) ds) by exact Hd.
    rewrite (cacheSettings_reads (set_this (set_virtualPageCache other) w) w);
      reflexivity.
Qed.

(** C5: a full reset, performed while a datasource is present, dispatches
    the model-updated event exactly once, and does so last: the new cache
    has been constructed, stored and wired when the event goes out. *)
Theorem C5_one_model_updated (w : World) (ds : IDataSource) :
  this_datasource (this w) = some ds →
  dispatched (trace (reset w).2) = dispatched (trace w) ++ [EVENT_MODEL_UPDATED] ∧
  (∃ before : list Call,
     trace (reset w).2 =
       trace w ++ before
       ++ [CacheNew (resetCache_cacheSettings w); WireBean; DispatchEvent EVENT_MODEL_UPDATED] ∧
     dispatched before = []) ∧
  (∃ w1 : World,
     reset w = eventService_dispatchEvent EVENT_MODEL_UPDATED w1 ∧
     virtualPageCache (this w1) =
       some (wired (new_VirtualPageCache (resetCache_cacheSettings w)))).
Proof.
  intros Hd. split; [| split].
  - rewrite (reset_trace w ds Hd), !dispatched_app.
    destruct (Utils.exists_ (getRowNodeIdFunc (gridOptionsWrapper w)));
      destruct (truthy (virtualPageCache (this w))); cbn;
      rewrite ?app_nil_r; reflexivity.
  - eexists. split; [exact (reset_trace w ds Hd) |].
    destruct (Utils.exists_ (getRowNodeIdFunc (gridOptionsWrapper w)));
      destruct (truthy (virtualPageCache (this w))); reflexivity.
  - exists (resetCache (after_selection w)).2.
    split; [exact (reset_present w ds Hd) |].
    rewrite resetCache_world. cbn. rewrite after_selection_cacheSettings. reflexivity.
Qed.

(** C6, as the code has it: on every reset performed while a datasource is
    present, the selection is left as it was when the application supplies
    a row-identity function, and is emptied when it supplies none.  A reset
    without a datasource leaves the selection as it was in both cases. *)
Theorem C6_selection_across_reset (w : World) :
  (∀ ds : IDataSource,
     this_datasource (this w) = some ds →
     (Utils.exists_ (getRowNodeIdFunc (gridOptionsWrapper w)) = true →
        selectionController (reset w).2 = selectionController w) ∧
     (Utils.exists_ (getRowNodeIdFunc (gridOptionsWrapper w)) = false →
        selectionController (reset w).2 = ∅)) ∧
  (Utils.missing (this_datasource (this w)) = true →
     selectionController (reset w).2 = selectionController w).
Proof.
  split.
  - intros ds Hd. rewrite (reset_present w ds Hd), resetCache_world. run_M.
    unfold after_selection. split; intros ->; reflexivity.
  - intros Hm. rewrite (reset_missing w Hm). reflexivity.
Qed.

(** ** Grid options are read at reset time only *)

(** The queries run on the live cache and read nothing else: the trace and
    the collaborators may differ, the answer and the cache do not. *)
Lemma queries_read_cache_only (w1 w2 : World) :
  virtualPageCache (this w1) = virtualPageCache (this w2) →
  (∀ rowIndex,
     (getRow rowIndex w1).1 = (getRow rowIndex w2).1 ∧
     virtualPageCache (this (getRow rowIndex w1).2) =
     virtualPageCache (this (getRow rowIndex w2).2)) ∧
  ((getRowCount w1).1 = (getRowCount w2).1 ∧
   virtualPageCache (this (getRowCount w1).2) = virtualPageCache (this (getRowCount w2).2)) ∧
  ((getRowCombinedHeight w1).1 = (getRowCombinedHeight w2).1 ∧
   virtualPageCache (this (getRowCombinedHeight w1).2) =
   virtualPageCache (this (getRowCombinedHeight w2).2)) ∧
  (∀ pixel,
     (getRowIndexAtPixel pixel w1).1 = (getRowIndexAtPixel pixel w2).1 ∧
     virtualPageCache (this (getRowIndexAtPixel pixel w1).2) =
     virtualPageCache (this (getRowIndexAtPixel pixel w2).2)) ∧
  ((forEachNode w1).1 = (forEachNode w2).1 ∧
   virtualPageCache (this (forEachNode w1).2) = virtualPageCache (this (forEachNode w2).2)).
Proof.
  intros Hc.
  unfold getRow, getRowCount, getRowCombinedHeight, getRowIndexAtPixel, forEachNode.
  run_M. rewrite Hc.
  destruct (virtualPageCache (this w2)) eqn:Hc2; cbn; repeat split; congruence.
Qed.

(** C7: the settings of a cache are read from the grid options (and from the
    filter and sort components) once, when the reset constructs it.  A later
    change of an option, of the filter or of the sort leaves the live cache
    and its settings as they are and changes no answer of the cache; the new
    values are in the snapshot of the cache that the next reset constructs. *)
Theorem C7_snapshot_taken_at_reset (w : World) (c : VirtualPageCache) (a : Action) :
  virtualPageCache (this w) = some c →
  changes_configuration a = true →
  virtualPageCache (this (step a w)) = some c ∧
  abandoned (step a w) = abandoned w ∧
  (∀ rowIndex, (getRow rowIndex (step a w)).1 = (getRow rowIndex w).1) ∧
  (getRowCount (step a w)).1 = (getRowCount w).1 ∧
  (getRowCombinedHeight (step a w)).1 = (getRowCombinedHeight w).1 ∧
  (∀ pixel, (getRowIndexAtPixel pixel (step a w)).1 = (getRowIndexAtPixel pixel w).1) ∧
  (forEachNode (step a w)).1 = (forEachNode w).1 ∧
  (∀ ds : IDataSource,
     this_datasource (this w) = some ds →
     ∃ c' : VirtualPageCache,
       virtualPageCache (this (reset (step a w)).2) = some c' ∧
       filterModel (cacheParams c') = filterManager (step a w) ∧
       sortModel (cacheParams c') = sortController (step a w) ∧
       rowHeight (cacheParams c') = getRowHeightAsNumber (gridOptionsWrapper (step a w)) ∧
       maxPagesInCache (cacheParams c') = getMaxPagesInCache (gridOptionsWrapper (step a w)) ∧
       pageSize (cacheParams c') =
         (if ge (getPaginationPageSize (gridOptionsWrapper (step a w))) 1
          then getPaginationPageSize (gridOptionsWrapper (step a w)) else num 100) ∧
       maxConcurrentDatasourceRequests (cacheParams c') =
         (if ge (getMaxConcurrentDatasourceRequests (gridOptionsWrapper (step a w))) 1
          then getMaxConcurrentDatasourceRequests (gridOptionsWrapper (step a w)) else num 2) ∧
       paginationOverflowSize (cacheParams c') =
         (if ge (getPaginationOverflowSize (gridOptionsWrapper (step a w))) 1
          then getPaginationOverflowSize (gridOptionsWrapper (step a w)) else num 1) ∧
       paginationInitialRowCount (cacheParams c') =
         (if ge (getPaginationInitialRowCount (gridOptionsWrapper (step a w))) 1
          then getPaginationInitialRowCount (gridOptionsWrapper (step a w)) else num 0)).
Proof.
  intros Hc Ha.
  assert (this (step a w) = this w ∧ abandoned (step a w) = abandoned w) as [Hthis Hab]
    by (destruct a; try discriminate Ha; split; reflexivity).
  assert (virtualPageCache (this (step a w)) = virtualPageCache (this w)) as Hsame
    by (rewrite Hthis; reflexivity).
  destruct (queries_read_cache_only (step a w) w Hsame)
    as (Hrow & [Hcnt _] & [Hh _] & Hpx & [Hfe _]).
  split; [rewrite Hsame; exact Hc |].
  split; [exact Hab |].
  split; [intros i; apply Hrow |].
  split; [exact Hcnt |].
  split; [exact Hh |].
  split; [intros px; apply Hpx |].
  split; [exact Hfe |].
  intros ds Hd.
  assert (this_datasource (this (step a w)) = some ds) as Hd' by (rewrite Hthis; exact Hd).
  exists (wired (new_VirtualPageCache (resetCache_cacheSettings (step a w)))).
  split; [exact (reset_cache _ ds Hd') |].
  rewrite wired_cacheParams. cbn [cacheParams new_VirtualPageCache].
  destruct (cacheSettings_copied (step a w)) as (_ & Hf & Hs & Hmax & Hrh & _).
  rewrite cacheSettings_pageSize, cacheSettings_maxConcurrentDatasourceRequests,
    cacheSettings_paginationOverflowSize, cacheSettings_paginationInitialRowCount.
  repeat split; assumption.
Qed.

(** ** The two listeners *)

Lemma reset_appends (w : World) (ds : IDataSource) :
  this_datasource (this w) = some ds →
  CacheNew (resetCache_cacheSettings w) ∈ drop (length (trace w)) (trace (reset w).2).
Proof.
  intros Hd. rewrite (reset_trace w ds Hd), drop_app_length.
  apply elem_of_app. right. constructor.
Qed.

(** C8, as the code has it: while a datasource is set, a filter-changed
    event resets the cache if and only if server-side filtering is enabled,
    and a sort-changed event if and only if server-side sorting is enabled.
    With the mode disabled, and also with no datasource set, the event
    leaves the state of the row model exactly as it was. *)
Theorem C8_listeners_reset_iff_enabled (w : World) :
  (isEnableServerSideFilter (gridOptionsWrapper w) = true → onFilterChanged w = reset w) ∧
  (isEnableServerSideFilter (gridOptionsWrapper w) = false → onFilterChanged w = (tt, w)) ∧
  (isEnableServerSideSorting (gridOptionsWrapper w) = true → onSortChanged w = reset w) ∧
  (isEnableServerSideSorting (gridOptionsWrapper w) = false → onSortChanged w = (tt, w)) ∧
  (∀ ds : IDataSource,
     this_datasource (this w) = some ds →
     (CacheNew (resetCache_cacheSettings w)
        ∈ drop (length (trace w)) (trace (onFilterChanged w).2)
      ↔ isEnableServerSideFilter (gridOptionsWrapper w) = true) ∧
     (CacheNew (resetCache_cacheSettings w)
        ∈ drop (length (trace w)) (trace (onSortChanged w).2)
      ↔ isEnableServerSideSorting (gridOptionsWrapper w) = true)) ∧
  (Utils.missing (this_datasource (this w)) = true →
     onFilterChanged w = (tt, w) ∧ onSortChanged w = (tt, w)).
Proof.
  assert (Utils.missing (this_datasource (this w)) = true →
          onFilterChanged w = (tt, w) ∧ onSortChanged w = (tt, w)) as Hmissing
    by (intros Hm; split;
        [exact (onFilterChanged_missing w Hm) | exact (onSortChanged_missing w Hm)]).
  revert Hmissing.
  assert (∀ b : bool, (if b then reset else mret tt) w = if b then reset w else (tt, w)) as Hif
    by (intros []; reflexivity).
  unfold onFilterChanged, onSortChanged. unfold mbind, M_bind, gets. cbn [fst snd].
  rewrite !Hif. intros Hmissing.
  split; [intros ->; reflexivity |].
  split; [intros ->; reflexivity |].
  split; [intros ->; reflexivity |].
  split; [intros ->; reflexivity |].
  split; [| exact Hmissing].
  intros ds Hd. pose proof (reset_appends w ds Hd) as Hnew.
  split.
  - destruct (isEnableServerSideFilter (gridOptionsWrapper w)).
    + split; [reflexivity | intros _; exact Hnew].
    + cbn. rewrite drop_all. split; [intros Hin; inversion Hin | discriminate].
  - destruct (isEnableServerSideSorting (gridOptionsWrapper w)).
    + split; [reflexivity | intros _; exact Hnew].
    + cbn. rewrite drop_all. split; [intros Hin; inversion Hin | discriminate].
Qed.

(** ** The deprecated datasource fields *)

Lemma console_not_dispatched (calls : list Call) :
  without_console calls = [] → dispatched calls = [].
Proof.
  induction calls as [| c calls IH]; [reflexivity |].
  unfold without_console. rewrite filter_cons.
  destruct (decide (is_console c = false)) as [Hno | Hyes]; [discriminate |].
  intros Hrest. destruct c; try (exfalso; apply Hyes; reflexivity); exact (IH Hrest).
Qed.

(** What [setDatasource] with an object leaves of the collaborators: it
    depends on the world it started in and not on the object. *)
Lemma setDatasource_collaborators (w : World) (ds : IDataSource) :
  selectionController (setDatasource (some ds) w).2 = selectionController (after_selection w) ∧
  abandoned (setDatasource (some ds) w).2 =
    match virtualPageCache (this w) with
    | some old => abandoned w ++ [VirtualPageCache_destroy old]
    | _ => abandoned w
    end ∧
  dispatched (trace (setDatasource (some ds) w).2) =
    dispatched (trace w) ++ [EVENT_MODEL_UPDATED].
Proof.
  rewrite setDatasource_some.
  destruct (checkForDeprecated_console (set_this (set_datasource (some ds)) w))
    as (errors & -> & Herrors).
  apply console_not_dispatched in Herrors.
  split; [| split].
  - rewrite (reset_present _ ds) by reflexivity. rewrite resetCache_world. run_M.
    unfold after_selection. cbn.
    destruct (Utils.exists_ (getRowNodeIdFunc (gridOptionsWrapper w))); reflexivity.
  - rewrite (reset_present _ ds) by reflexivity. rewrite resetCache_world. run_M.
    rewrite after_selection_this. unfold after_selection. cbn.
    destruct (Utils.exists_ (getRowNodeIdFunc (gridOptionsWrapper w)));
      destruct (virtualPageCache (this w)); reflexivity.
  - rewrite (reset_trace _ ds) by reflexivity. cbn [trace set_trace set_this].
    rewrite !dispatched_app, Herrors, app_nil_r. cbn.
    destruct (Utils.exists_ (getRowNodeIdFunc (gridOptionsWrapper w)));
      destruct (virtualPageCache (this w)); reflexivity.
Qed.

(** C9: the deprecated fields maxConcurrentRequests, maxPagesInCache,
    overflowSize and pageSize of the datasource object never reach the
    configuration of the cache.  For any two datasources, the caches that
    [setDatasource] constructs agree on every setting, the handle of the
    datasource itself apart, each is the wired new cache of its settings,
    and the selection, the abandoned caches and the dispatched events
    agree; what [checkForDeprecated] does with the fields is console output
    only. *)
Theorem C9_deprecated_fields_ignored (w : World) (ds1 ds2 : IDataSource) :
  ∃ c1 c2 : VirtualPageCache,
    virtualPageCache (this (setDatasource (some ds1) w).2) = some c1 ∧
    virtualPageCache (this (setDatasource (some ds2) w).2) = some c2 ∧
    datasource (cacheParams c1) = some ds1 ∧
    datasource (cacheParams c2) = some ds2 ∧
    filterModel (cacheParams c1) = filterModel (cacheParams c2) ∧
    sortModel (cacheParams c1) = sortModel (cacheParams c2) ∧
    maxConcurrentDatasourceRequests (cacheParams c1) =
      maxConcurrentDatasourceRequests (cacheParams c2) ∧
    paginationOverflowSize (cacheParams c1) = paginationOverflowSize (cacheParams c2) ∧
    paginationInitialRowCount (cacheParams c1) = paginationInitialRowCount (cacheParams c2) ∧
    maxPagesInCache (cacheParams c1) = maxPagesInCache (cacheParams c2) ∧
    pageSize (cacheParams c1) = pageSize (cacheParams c2) ∧
    rowHeight (cacheParams c1) = rowHeight (cacheParams c2) ∧
    lastAccessedSequence (cacheParams c1) = lastAccessedSequence (cacheParams c2) ∧
    c1 = wired (new_VirtualPageCache (cacheParams c1)) ∧
    c2 = wired (new_VirtualPageCache (cacheParams c2)) ∧
    selectionController (setDatasource (some ds1) w).2 =
      selectionController (setDatasource (some ds2) w).2 ∧
    abandoned (setDatasource (some ds1) w).2 = abandoned (setDatasource (some ds2) w).2 ∧
    dispatched (trace (setDatasource (some ds1) w).2) =
      dispatched (trace (setDatasource (some ds2) w).2) ∧
    (∃ errors : list Call,
       (checkForDeprecated (set_this (set_datasource (some ds1)) w)).2 =
         set_trace (trace w ++ errors) (set_this (set_datasource (some ds1)) w) ∧
       without_console errors = []).
Proof.
  exists (wired (new_VirtualPageCache
                   (resetCache_cacheSettings (set_this (set_datasource (some ds1)) w)))),
    (wired (new_VirtualPageCache
              (resetCache_cacheSettings (set_this (set_datasource (some ds2)) w)))).
  split; [apply setDatasource_cache |].
  split; [apply setDatasource_cache |].
  rewrite !wired_cacheParams. cbn [cacheParams new_VirtualPageCache].
  rewrite !cacheSettings_pageSize, !cacheSettings_maxConcurrentDatasourceRequests,
    !cacheSettings_paginationOverflowSize, !cacheSettings_paginationInitialRowCount.
  destruct (cacheSettings_copied (set_this (set_datasource (some ds1)) w))
    as (-> & -> & -> & -> & -> & ->).
  destruct (cacheSettings_copied (set_this (set_datasource (some ds2)) w))
    as (-> & -> & -> & -> & -> & ->).
  repeat (split; [reflexivity |]).
  destruct (setDatasource_collaborators w ds1) as (-> & -> & ->).
  destruct (setDatasource_collaborators w ds2) as (-> & -> & ->).
  repeat (split; [reflexivity |]).
  exact (checkForDeprecated_console (set_this (set_datasource (some ds1)) w)).
Qed.

(** ** The unsupported mutators *)

(** C10: for every state and all arguments, insertItemsAtIndex, removeItems
    and addItems leave the row model, its cache and every collaborator as
    they were; they write one line to the console log.  Every row query
    answers after such a call as it did before, and leaves the same cache. *)
Theorem C10_mutators_only_log (w : World) (index : number) (items : list any)
    (rowNodes : list RowNode) :
  insertItemsAtIndex index items w =
    (tt, set_trace (trace w ++ [ConsoleLog "not yet supported"]) w) ∧
  removeItems rowNodes w =
    (tt, set_trace (trace w ++ [ConsoleLog "not yet supported"]) w) ∧
  addItems items w =
    (tt, set_trace (trace w ++ [ConsoleLog "not yet supported"]) w) ∧
  (∀ w' : World,
     w' = (insertItemsAtIndex index items w).2 ∨
     w' = (removeItems rowNodes w).2 ∨
     w' = (addItems items w).2 →
     this w' = this w ∧
     gridOptionsWrapper w' = gridOptionsWrapper w ∧
     filterManager w' = filterManager w ∧
     sortController w' = sortController w ∧
     selectionController w' = selectionController w ∧
     abandoned w' = abandoned w ∧
     without_console (trace w') = without_console (trace w) ∧
     (∀ rowIndex,
        (getRow rowIndex w').1 = (getRow rowIndex w).1 ∧
        virtualPageCache (this (getRow rowIndex w').2) =
        virtualPageCache (this (getRow rowIndex w).2)) ∧
     ((getRowCount w').1 = (getRowCount w).1 ∧
      virtualPageCache (this (getRowCount w').2) =
      virtualPageCache (this (getRowCount w).2)) ∧
     ((getRowCombinedHeight w').1 = (getRowCombinedHeight w).1 ∧
      virtualPageCache (this (getRowCombinedHeight w').2) =
      virtualPageCache (this (getRowCombinedHeight w).2)) ∧
     (∀ pixel,
        (getRowIndexAtPixel pixel w').1 = (getRowIndexAtPixel pixel w).1 ∧
        virtualPageCache (this (getRowIndexAtPixel pixel w').2) =
        virtualPageCache (this (getRowIndexAtPixel pixel w).2)) ∧
     ((forEachNode w').1 = (forEachNode w).1 ∧
      virtualPageCache (this (forEachNode w').2) =
      virtualPageCache (this (forEachNode w).2))).
Proof.
  do 3 (split; [reflexivity |]).
  intros w' Hw'.
  assert (w' = set_trace (trace w ++ [ConsoleLog "not yet supported"]) w) as ->
    by (destruct Hw' as [-> | [-> | ->]]; reflexivity).
  do 6 (split; [reflexivity |]).
  split.
  { unfold without_console. cbn [trace set_trace]. rewrite filter_app. cbn.
    apply app_nil_r. }
  apply queries_read_cache_only. reflexivity.
Qed.

(** * Further properties of the methods *)

(** ** What one reset and one destroy do to the whole world *)

Lemma reset_world (w : World) (ds : IDataSource) :
  this_datasource (this w) = some ds →
  (reset w).2 =
  {| this := set_virtualPageCache
               (some (wired (new_VirtualPageCache (resetCache_cacheSettings w)))) (this w);
     gridOptionsWrapper := gridOptionsWrapper w;
     filterManager := filterManager w;
     sortController := sortController w;
     selectionController :=
       if Utils.exists_ (getRowNodeIdFunc (gridOptionsWrapper w))
       then selectionController w else ∅;
     abandoned :=
       match virtualPageCache (this w) with
       | some old => abandoned w ++ [VirtualPageCache_destroy old]
       | _ => abandoned w
       end;
     trace := trace w ++ reset_calls w |}.
Proof.
  intros Hd. rewrite (reset_present w ds Hd), resetCache_world. run_M.
  rewrite after_selection_cacheSettings, after_selection_this.
  unfold after_selection, reset_calls.
  destruct (Utils.exists_ (getRowNodeIdFunc (gridOptionsWrapper w)));
    destruct (virtualPageCache (this w)); cbn; rewrite <- ?app_assoc; reflexivity.
Qed.

Lemma set_trace_same (w : World) : set_trace (trace w ++ []) w = w.
Proof. destruct w. unfold set_trace. cbn. rewrite app_nil_r. reflexivity. Qed.

Lemma destroyFunctions_world (fs : list DestroyFunction) (w : World) :
  (foldr (λ f k, run_destroyFunction f ;; k) (mret tt) fs w).2 =
  set_trace (trace w ++ destroy_calls fs) w.
Proof.
  revert w. induction fs as [| f fs IH]; intros w.
  - cbn. symmetry. apply set_trace_same.
  - cbn [foldr]. destruct f. unfold run_destroyFunction.
    unfold_calls. unfold mbind, M_bind at 1. rewrite IH.
    run_M. rewrite <- !app_assoc. reflexivity.
Qed.

Lemma destroy_world (w : World) :
  (destroy w).2 = set_trace (trace w ++ destroy_calls (destroyFunctions (this w))) w.
Proof. unfold destroy. unfold mbind, M_bind, gets. cbn. apply destroyFunctions_world. Qed.

(** ** The shape of one step

    Every action either makes quiet calls only and leaves caches, events and
    (unless it comes from outside) the collaborators alone, or it is one of
    the four that can reset and ends in a reset that goes through. *)

Lemma checkForDeprecated_quiet (w : World) :
  ∃ errors : list Call,
    (checkForDeprecated w).2 = set_trace (trace w ++ errors) w ∧
    Forall (λ c, is_quiet c = true) errors ∧ added errors = [].
Proof.
  destruct w as [t g f s sel ab tr].
  unfold checkForDeprecated. run_M.
  destruct (this_datasource t) as [| | ds];
    [exists []; cbn; rewrite app_nil_r; repeat split; constructor ..|].
  destruct (Utils.exists_any (ds_maxConcurrentRequests ds));
    destruct (Utils.exists_any (ds_maxPagesInCache ds));
    destruct (Utils.exists_any (ds_overflowSize ds));
    destruct (Utils.exists_any (ds_pageSize ds)); cbn;
    rewrite <- ?app_assoc; cbn;
    (eexists; split; [reflexivity | split; [repeat constructor | reflexivity]]) ||
    (exists []; rewrite app_nil_r; repeat split; constructor).
Qed.

#[local] Abbreviation destroy_calls := (@destroy_calls FilterModel SortModel GetRows).

Lemma destroy_calls_quiet (fs : list DestroyFunction) :
  Forall (λ c : Call, is_quiet c = true) (destroy_calls fs) ∧
  added (destroy_calls fs) = [] ∧
  removed (destroy_calls fs) = listeners_of fs.
Proof.
  induction fs as [| f fs (IHq & IHa & IHr)]; [repeat split; constructor |].
  split; [cbn; repeat constructor; exact IHq |].
  split; [exact IHa |]. cbn. do 2 f_equal. exact IHr.
Qed.

Lemma step_shape (a : Action) (w : World) : step_shaped a w (step a w).
Proof.
  (* a step that changes nothing but, perhaps, the collaborators *)
  assert (∀ w' : World,
            trace w' = trace w → abandoned w' = abandoned w →
            truthy (virtualPageCache (this w')) = truthy (virtualPageCache (this w)) →
            destroyFunctions (this w') = destroyFunctions (this w) →
            (is_environment a = false →
               gridOptionsWrapper w' = gridOptionsWrapper w ∧
               filterManager w' = filterManager w ∧
               sortController w' = sortController w ∧
               selectionController w' = selectionController w) →
            step_shaped a w w') as Hstill.
  { intros w' Ht Hab Hc Hfs Henv. exists [], []. split; [constructor |].
    split; [reflexivity |]. left. unfold quiet_step. rewrite !app_nil_r. auto. }
  (* a query on the cache *)
  assert (∀ A (method : VirtualPageCache → A * VirtualPageCache) (dflt : A),
            step_shaped a w
              ((c ← gets (λ w, virtualPageCache (this w));
                match c with
                | some c => on_cache method c
                | _ => mret dflt
                end) w).2) as Hquery.
  { intros A method dflt. apply Hstill; run_M;
      destruct (virtualPageCache (this w)) eqn:Hc; cbn; rewrite ?Hc; repeat split. }
  (* a reset called on [w] itself *)
  assert (may_reset a = true → step_shaped a w (reset w).2) as Hreset.
  { intros Hmay.
    destruct (this_datasource (this w)) as [| | d] eqn:Hd.
    - rewrite reset_missing by (rewrite Hd; reflexivity). apply Hstill; auto.
    - rewrite reset_missing by (rewrite Hd; reflexivity). apply Hstill; auto.
    - exists [], []. split; [constructor |]. split; [reflexivity |]. right.
      split; [exact Hmay |]. exists w, d. rewrite !app_nil_r. auto 12. }
  (* [setDatasource] called on a world that differs from [w] by quiet calls *)
  assert (∀ (d : maybe IDataSource) (w0 : World) (quiet0 : list Call)
            (extra : list DestroyFunction),
            may_reset a = true →
            Forall (λ c, is_quiet c = true) quiet0 →
            added quiet0 = listeners_of extra →
            trace w0 = trace w ++ quiet0 →
            virtualPageCache (this w0) = virtualPageCache (this w) →
            destroyFunctions (this w0) = destroyFunctions (this w) ++ extra →
            gridOptionsWrapper w0 = gridOptionsWrapper w →
            filterManager w0 = filterManager w →
            sortController w0 = sortController w →
            selectionController w0 = selectionController w →
            abandoned w0 = abandoned w →
            step_shaped a w (setDatasource d w0).2) as Hset.
  { intros d w0 quiet0 extra Hmay Hq0 Hadd Ht Hc Hfs Hg Hf Hs Hsel Hab.
    assert (∀ d' : maybe IDataSource, truthy d' = false →
              (setDatasource d' w0).2 = set_this (set_datasource d') w0) as Hfalsy
      by (intros [| | ?] Hd'; [reflexivity | reflexivity | discriminate Hd']).
    destruct d as [| | d].
    1, 2: exists quiet0, extra; split; [exact Hq0 |]; split; [exact Hadd |]; left;
      rewrite Hfalsy by reflexivity; unfold quiet_step; cbn; rewrite Hc; auto 12.
    destruct (checkForDeprecated_quiet (set_this (set_datasource (some d)) w0))
      as (errors & Hw1 & Hqe & Hae).
    exists (quiet0 ++ errors), extra.
    split; [apply Forall_app; split; assumption |].
    split; [unfold added in *; rewrite omap_app, Hae, app_nil_r; exact Hadd |].
    right. split; [exact Hmay |].
    exists (set_trace (trace (set_this (set_datasource (some d)) w0) ++ errors)
              (set_this (set_datasource (some d)) w0)), d.
    split; [rewrite setDatasource_some, Hw1; reflexivity |].
    cbn. rewrite Ht, <- app_assoc. auto 12. }
  destruct a; cbn [step].
  - (* init *)
    unfold init. unfold mbind, M_bind, gets. cbn [fst snd].
    destruct (isRowModelVirtual (gridOptionsWrapper w)) eqn:Hv; cbn [negb].
    + apply (Hset (getDatasource (gridOptionsWrapper w)) (addEventListeners w).2
               [AddEventListener EVENT_FILTER_CHANGED onFilterChangedListener;
                AddEventListener EVENT_SORT_CHANGED onSortChangedListener]
               [removeListeners]); try reflexivity.
      * repeat constructor.
      * unfold addEventListeners. run_M. rewrite <- app_assoc. reflexivity.
    + apply Hstill; auto.
  - (* destroy *)
    exists (destroy_calls (destroyFunctions (this w))), [].
    destruct (destroy_calls_quiet (destroyFunctions (this w))) as (Hq & Ha & _).
    split; [exact Hq |]. split; [exact Ha |].
    left. unfold quiet_step. rewrite destroy_world, app_nil_r. cbn. auto 12.
  - (* setDatasource *)
    apply (Hset ds w [] []); try reflexivity; try constructor;
      symmetry; apply app_nil_r.
  - (* onFilterChanged *)
    unfold onFilterChanged. unfold mbind, M_bind, gets. cbn [fst snd].
    destruct (isEnableServerSideFilter (gridOptionsWrapper w));
      [apply Hreset; reflexivity | apply Hstill; auto].
  - (* onSortChanged *)
    unfold onSortChanged. unfold mbind, M_bind, gets. cbn [fst snd].
    destruct (isEnableServerSideSorting (gridOptionsWrapper w));
      [apply Hreset; reflexivity | apply Hstill; auto].
  - apply Hstill; auto.
  - apply Hstill; auto.
  - apply (Hquery _ (cache_getRow rowIndex) null).
  - apply (Hquery _ cache_forEachNode []).
  - apply (Hquery _ cache_getRowCombinedHeight (num 0)).
  - apply (Hquery _ (cache_getRowIndexAtPixel pixel) (num (-1))).
  - apply (Hquery _ cache_getRowCount (num 0)).
  - exists [ConsoleLog "not yet supported"], []. split; [repeat constructor |].
    split; [reflexivity |]. left. unfold quiet_step. rewrite app_nil_r. cbn. auto 12.
  - exists [ConsoleLog "not yet supported"], []. split; [repeat constructor |].
    split; [reflexivity |]. left. unfold quiet_step. rewrite app_nil_r. cbn. auto 12.
  - exists [ConsoleLog "not yet supported"], []. split; [repeat constructor |].
    split; [reflexivity |]. left. unfold quiet_step. rewrite app_nil_r. cbn. auto 12.
  - apply Hstill; auto; discriminate.
  - apply Hstill; auto; discriminate.
  - apply Hstill; auto; discriminate.
  - apply Hstill; auto; discriminate.
Qed.

(** ** Counting calls *)

#[local] Abbreviation reset_calls :=
  (@reset_calls RowNode FilterModel SortModel GetRows RowNodeIdFunc).

Lemma count_app (kind : Call → bool) (l1 l2 : list Call) :
  count kind (l1 ++ l2) = count kind l1 + count kind l2.
Proof. unfold count. rewrite List.filter_app, length_app. reflexivity. Qed.

Lemma added_app (l1 l2 : list Call) : added (l1 ++ l2) = added l1 ++ added l2.
Proof. unfold added. apply omap_app. Qed.

Lemma removed_app (l1 l2 : list Call) : removed (l1 ++ l2) = removed l1 ++ removed l2.
Proof. unfold removed. apply omap_app. Qed.

Lemma constructed_app (l1 l2 : list Call) :
  constructed (l1 ++ l2) = constructed l1 ++ constructed l2.
Proof. unfold constructed. apply omap_app. Qed.

Lemma listeners_of_app (fs1 fs2 : list DestroyFunction) :
  listeners_of (fs1 ++ fs2) = listeners_of fs1 ++ listeners_of fs2.
Proof. unfold listeners_of. apply flat_map_app. Qed.

(** Quiet calls construct nothing, destroy nothing and dispatch nothing. *)
Lemma quiet_calls (quiet : list Call) :
  Forall (λ c, is_quiet c = true) quiet →
  constructed quiet = [] ∧ dispatched quiet = [] ∧
  count is_CacheNew quiet = 0 ∧ count is_CacheDestroy quiet = 0 ∧
  count is_WireBean quiet = 0 ∧ count is_SelectionReset quiet = 0.
Proof.
  induction 1 as [| c quiet Hc _ IH]; [repeat split |].
  destruct c; try discriminate Hc; exact IH.
Qed.

(** The calls of a reset that goes through: no listener is touched, one
    cache is constructed and wired, the old one is destroyed if there was
    one, and one event goes out. *)
Lemma reset_calls_counts (w : World) :
  added (reset_calls w) = [] ∧ removed (reset_calls w) = [] ∧
  constructed (reset_calls w) = [resetCache_cacheSettings w] ∧
  dispatched (reset_calls w) = [EVENT_MODEL_UPDATED] ∧
  count is_CacheNew (reset_calls w) = 1 ∧
  count is_WireBean (reset_calls w) = 1 ∧
  count is_CacheDestroy (reset_calls w) =
    (if truthy (virtualPageCache (this w)) then 1 else 0) ∧
  count is_SelectionReset (reset_calls w) =
    (if Utils.exists_ (getRowNodeIdFunc (gridOptionsWrapper w)) then 0 else 1).
Proof.
  unfold reset_calls.
  destruct (Utils.exists_ (getRowNodeIdFunc (gridOptionsWrapper w)));
    destruct (truthy (virtualPageCache (this w))); repeat split.
Qed.

(** The snapshot of a world that has a datasource is valid. *)
Lemma cacheSettings_valid (w : World) (ds : IDataSource) :
  this_datasource (this w) = some ds → valid_settings (resetCache_cacheSettings w).
Proof.
  intros Hd. unfold valid_settings.
  rewrite cacheSettings_pageSize, cacheSettings_maxConcurrentDatasourceRequests,
    cacheSettings_paginationOverflowSize, cacheSettings_paginationInitialRowCount.
  destruct (cacheSettings_copied w) as (-> & _). rewrite Hd.
  split; [reflexivity |].
  split; [destruct (ge (getMaxConcurrentDatasourceRequests _) 1) eqn:E; [exact E | reflexivity] |].
  split; [destruct (ge (getPaginationPageSize _) 1) eqn:E; [exact E | reflexivity] |].
  split; [destruct (ge (getPaginationOverflowSize _) 1) eqn:E; [exact E | reflexivity] |].
  destruct (ge (getPaginationInitialRowCount _) 1) eqn:E; [left; exact E | right; reflexivity].
Qed.

(** ** Listeners: [init], [addEventListeners] and [destroy] *)

Lemma step_listeners (a : Action) (w : World) :
  added (trace w) = listeners_of (destroyFunctions (this w)) →
  added (trace (step a w)) = listeners_of (destroyFunctions (this (step a w))).
Proof.
  intros Hw. destruct (step_shape a w) as (quiet & extra & _ & Hadd & [HQ | HR]).
  - destruct HQ as (Ht & _ & _ & Hfs & _).
    rewrite Ht, Hfs, added_app, listeners_of_app, Hadd, Hw. reflexivity.
  - destruct HR as (_ & w1 & ds & -> & Hd & _ & Hfs & _ & _ & _ & _ & _ & Ht).
    rewrite (reset_world w1 ds Hd). cbn [trace this destroyFunctions set_virtualPageCache].
    destruct (reset_calls_counts w1) as (Hnone & _).
    rewrite added_app, Hnone, app_nil_r, Ht, Hfs, added_app, listeners_of_app, Hadd, Hw.
    reflexivity.
Qed.

Lemma run_listeners (acts : list Action) (w : World) :
  added (trace w) = listeners_of (destroyFunctions (this w)) →
  added (trace (run acts w)) = listeners_of (destroyFunctions (this (run acts w))).
Proof.
  revert w. induction acts as [| a acts IH]; intros w Hw; [exact Hw |].
  cbn [run]. apply IH, step_listeners, Hw.
Qed.

(** X1: whatever happened to a row model since it was constructed,
    [destroy()] removes the listeners that its [init()] calls have
    registered, event by event and listener by listener in the order of
    registration, and registers none. *)
Theorem X1_destroy_removes_registered_listeners (w0 : World) (acts : list Action) :
  this w0 = new_Fields →
  added (trace w0) = [] →
  removed (drop (length (trace (run acts w0))) (trace (destroy (run acts w0)).2)) =
    added (trace (run acts w0)) ∧
  added (trace (destroy (run acts w0)).2) = added (trace (run acts w0)).
Proof.
  intros Hnew Hnone.
  assert (added (trace (run acts w0)) =
          listeners_of (destroyFunctions (this (run acts w0)))) as Hinv
    by (apply run_listeners; rewrite Hnone, Hnew; reflexivity).
  destruct (destroy_calls_quiet (destroyFunctions (this (run acts w0)))) as (_ & Ha & Hr).
  rewrite destroy_world. cbn [trace set_trace].
  rewrite drop_app_length, added_app, Ha, app_nil_r, Hr, Hinv. split; reflexivity.
Qed.

(** X2: [destroy()] unregisters listeners and does nothing else.  The
    datasource stays, the live cache stays and is not destroyed, no event
    goes out; the closures stay on [destroyFunctions], so that a second
    [destroy()] makes the same removals again. *)
Theorem X2_destroy_keeps_cache_and_datasource (w : World) :
  this (destroy w).2 = this w ∧
  abandoned (destroy w).2 = abandoned w ∧
  selectionController (destroy w).2 = selectionController w ∧
  dispatched (trace (destroy w).2) = dispatched (trace w) ∧
  count is_CacheDestroy (trace (destroy w).2) = count is_CacheDestroy (trace w) ∧
  (∀ rowIndex, (getRow rowIndex (destroy w).2).1 = (getRow rowIndex w).1) ∧
  drop (length (trace (destroy w).2)) (trace (destroy (destroy w).2).2) =
    drop (length (trace w)) (trace (destroy w).2).
Proof.
  destruct (destroy_calls_quiet (destroyFunctions (this w))) as (Hq & _ & _).
  destruct (quiet_calls _ Hq) as (_ & Hd & _ & Hcd & _).
  rewrite !destroy_world. cbn [this abandoned selectionController trace set_trace].
  rewrite !drop_app_length, dispatched_app, count_app, Hd, Hcd, app_nil_r, Nat.add_0_r.
  repeat split.
  intros rowIndex.
  apply (queries_read_cache_only
           (set_trace (trace w ++ destroy_calls (destroyFunctions (this w))) w) w).
  reflexivity.
Qed.

(** ** The cache field *)

Lemma missing_truthy {A : Type} (v : maybe A) : Utils.missing v = negb (truthy v).
Proof. destruct v; reflexivity. Qed.

Lemma step_keeps_cache (a : Action) (w : World) :
  truthy (virtualPageCache (this w)) = true →
  truthy (virtualPageCache (this (step a w))) = true.
Proof.
  intros Hw. destruct (step_shape a w) as (quiet & extra & _ & _ & [HQ | HR]).
  - destruct HQ as (_ & _ & -> & _). exact Hw.
  - destruct HR as (_ & w1 & ds & -> & Hd & _).
    rewrite (reset_world w1 ds Hd). reflexivity.
Qed.

(** X3: a cache, once live, is never taken away again.  Whatever follows,
    [setDatasource(null)] and [destroy()] included, [isEmpty()] keeps
    answering false and [isRowsToRender()] true; the two always answer
    opposite to each other and change nothing. *)
Theorem X3_cache_is_never_dropped (w : World) (acts : list Action) :
  (isEmpty w).1 = false →
  (isEmpty (run acts w)).1 = false ∧
  (isRowsToRender (run acts w)).1 = true ∧
  (∀ w' : World,
     (isRowsToRender w').1 = negb (isEmpty w').1 ∧
     (isEmpty w').2 = w' ∧ (isRowsToRender w').2 = w').
Proof.
  intros Hw.
  assert (truthy (virtualPageCache (this (run acts w))) = true) as Hrun.
  { revert w Hw. induction acts as [| a acts IH]; intros w Hw.
    - cbn in *. rewrite missing_truthy in Hw. apply negb_false_iff, Hw.
    - cbn [run]. apply IH. cbn. rewrite missing_truthy. apply negb_false_iff.
      apply step_keeps_cache. cbn in Hw. rewrite missing_truthy in Hw.
      apply negb_false_iff, Hw. }
  cbn. rewrite missing_truthy, Hrun. split; [reflexivity |].
  split; [destruct (virtualPageCache (this (run acts w))); [discriminate Hrun ..| reflexivity] |].
  intros w'. unfold Utils.missing. rewrite negb_involutive. repeat split.
Qed.

(** ** Taking the datasource away *)

(** X4: [setDatasource] with [null] or [undefined] assigns the field and
    stops there.  A cache that was live stays live and answers as before,
    nothing is logged or dispatched, and from then on a sort or filter
    change resets nothing: the grid keeps the rows of the old datasource. *)
Theorem X4_setDatasource_without_object (w : World) (d : maybe IDataSource) :
  truthy d = false →
  setDatasource d w = (tt, set_this (set_datasource d) w) ∧
  virtualPageCache (this (setDatasource d w).2) = virtualPageCache (this w) ∧
  trace (setDatasource d w).2 = trace w ∧
  (∀ rowIndex, (getRow rowIndex (setDatasource d w).2).1 = (getRow rowIndex w).1) ∧
  (getRowCount (setDatasource d w).2).1 = (getRowCount w).1 ∧
  onFilterChanged (setDatasource d w).2 = (tt, (setDatasource d w).2) ∧
  onSortChanged (setDatasource d w).2 = (tt, (setDatasource d w).2) ∧
  reset (setDatasource d w).2 = (tt, (setDatasource d w).2).
Proof.
  intros Hd.
  assert (setDatasource d w = (tt, set_this (set_datasource d) w)) as ->
    by (destruct d; [reflexivity | reflexivity | discriminate Hd]).
  assert (Utils.missing (this_datasource (this (set_this (set_datasource d) w))) = true) as Hm
    by (destruct d; [reflexivity | reflexivity | discriminate Hd]).
  destruct (queries_read_cache_only (set_this (set_datasource d) w) w eq_refl)
    as (Hrow & [Hcount _] & _).
  cbn [fst snd].
  split; [reflexivity |]. split; [reflexivity |]. split; [reflexivity |].
  split; [intros rowIndex; apply Hrow |].
  split; [exact Hcount |].
  split; [exact (onFilterChanged_missing _ Hm) |].
  split; [exact (onSortChanged_missing _ Hm) | exact (reset_missing _ Hm)].
Qed.

(** ** Every cache gets valid settings *)

Lemma step_constructed (a : Action) (w : World) :
  Forall valid_settings (constructed (trace w)) →
  Forall valid_settings (constructed (trace (step a w))).
Proof.
  intros Hw. destruct (step_shape a w) as (quiet & extra & Hq & _ & [HQ | HR]).
  - destruct HQ as (-> & _). destruct (quiet_calls _ Hq) as (Hc & _).
    rewrite constructed_app, Hc, app_nil_r. exact Hw.
  - destruct HR as (_ & w1 & ds & -> & Hd & _ & _ & _ & _ & _ & _ & _ & Ht).
    rewrite (reset_world w1 ds Hd). cbn [trace].
    destruct (quiet_calls _ Hq) as (Hc & _).
    destruct (reset_calls_counts w1) as (_ & _ & Hnew & _).
    rewrite constructed_app, Hnew, Ht, constructed_app, Hc, app_nil_r.
    apply Forall_app. split; [exact Hw |].
    constructor; [exact (cacheSettings_valid w1 ds Hd) | constructor].
Qed.

(** X5: every cache that a row model constructs, on whatever path, is given
    a datasource object and settings the defaults have put in range: page
    size, concurrent requests and overflow size are >= 1 (so never NaN,
    null or undefined), and the initial row count is >= 1 or the default 0. *)
Theorem X5_constructed_caches_get_valid_settings (w0 : World) (acts : list Action) :
  constructed (trace w0) = [] →
  Forall valid_settings (constructed (trace (run acts w0))).
Proof.
  intros Hnone.
  assert (Forall valid_settings (constructed (trace w0))) as Hw0
    by (rewrite Hnone; constructor).
  clear Hnone. revert w0 Hw0.
  induction acts as [| a acts IH]; intros w0 Hw0; [exact Hw0 |].
  cbn [run]. apply IH, step_constructed, Hw0.
Qed.

(** ** Resetting again *)

(** X6: a reset that follows a reset, nothing having changed in between,
    constructs a cache with the same settings, destroys the cache of the
    first reset, and dispatches a second event. *)
Theorem X6_second_reset (w : World) (ds : IDataSource) :
  this_datasource (this w) = some ds →
  resetCache_cacheSettings (reset w).2 = resetCache_cacheSettings w ∧
  virtualPageCache (this (reset (reset w).2).2) = virtualPageCache (this (reset w).2) ∧
  count is_CacheDestroy (drop (length (trace (reset w).2)) (trace (reset (reset w).2).2)) = 1 ∧
  constructed (drop (length (trace (reset w).2)) (trace (reset (reset w).2).2)) =
    [resetCache_cacheSettings w] ∧
  length (abandoned (reset (reset w).2).2) = S (length (abandoned (reset w).2)) ∧
  dispatched (trace (reset (reset w).2).2) =
    dispatched (trace w) ++ [EVENT_MODEL_UPDATED; EVENT_MODEL_UPDATED].
Proof.
  intros Hd.
  assert (this_datasource (this (reset w).2) = some ds) as Hd'
    by (rewrite (reset_world w ds Hd); exact Hd).
  assert (resetCache_cacheSettings (reset w).2 = resetCache_cacheSettings w) as Hsame
    by (apply cacheSettings_reads; rewrite (reset_world w ds Hd); reflexivity).
  assert (truthy (virtualPageCache (this (reset w).2)) = true) as Hlive
    by (rewrite (reset_world w ds Hd); reflexivity).
  split; [exact Hsame |].
  rewrite (reset_world (reset w).2 ds Hd').
  cbn [this trace abandoned virtualPageCache set_virtualPageCache].
  rewrite drop_app_length, Hsame.
  destruct (reset_calls_counts (reset w).2) as (_ & _ & Hc & Hdis & _ & _ & Hcd & _).
  rewrite Hlive in Hcd. rewrite Hsame in Hc.
  split; [rewrite (reset_world w ds Hd); reflexivity |].
  split; [exact Hcd |].
  split; [exact Hc |].
  split.
  { destruct (virtualPageCache (this (reset w).2)); try discriminate Hlive.
    rewrite length_app. cbn. lia. }
  rewrite dispatched_app, Hdis, (reset_world w ds Hd). cbn [trace].
  destruct (reset_calls_counts w) as (_ & _ & _ & Hdis0 & _).
  rewrite dispatched_app, Hdis0, <- app_assoc. reflexivity.
Qed.

(** ** The books balance *)

Lemma step_accounted (a : Action) (w : World) : accounted w → accounted (step a w).
Proof.
  intros (Hnew & Hdes & Hwire & Hdis).
  destruct (step_shape a w) as (quiet & extra & Hq & _ & [HQ | HR]);
    destruct (quiet_calls _ Hq) as (_ & Hqd & Hqn & Hqdes & Hqw & _).
  - destruct HQ as (Ht & Hab & Hc & _). unfold accounted.
    rewrite Ht, Hab, Hc, !count_app, dispatched_app, Hqd, Hqn, Hqdes, Hqw,
      app_nil_r, !Nat.add_0_r.
    repeat split; assumption.
  - destruct HR as (_ & w1 & ds & -> & Hd & Hc & _ & _ & _ & _ & _ & Hab & Ht).
    destruct (reset_calls_counts w1) as (_ & _ & _ & Hrd & Hrn & Hrw & Hrdes & _).
    unfold accounted. rewrite (reset_world w1 ds Hd).
    cbn [trace abandoned this virtualPageCache set_virtualPageCache truthy].
    rewrite !count_app, dispatched_app, Hrd, Hrn, Hrw, Hrdes, Ht, !count_app,
      dispatched_app, Hqd, Hqn, Hqdes, Hqw, app_nil_r, !Nat.add_0_r, Hc, Hab.
    assert (length
              match virtualPageCache (this w) with
              | some old => abandoned w ++ [VirtualPageCache_destroy old]
              | _ => abandoned w
              end =
            length (abandoned w) + (if truthy (virtualPageCache (this w)) then 1 else 0))
      as -> by (destruct (virtualPageCache (this w)); rewrite ?length_app; cbn; lia).
    rewrite Hdis, Hwire, Hnew, Hdes.
    repeat split; try lia.
    rewrite !replicate_add. reflexivity.
Qed.

(** X7: the caches of a row model are all accounted for.  At every moment
    the number of caches constructed so far is the number of caches
    destroyed and abandoned, plus one if a cache is live; each of them was
    wired; and the events dispatched so far are model-updated events, one
    per construction. *)
Theorem X7_caches_are_accounted_for (w0 : World) (acts : list Action) :
  this w0 = new_Fields →
  trace w0 = [] →
  abandoned w0 = [] →
  count is_CacheNew (trace (run acts w0)) =
    length (abandoned (run acts w0)) +
    (if truthy (virtualPageCache (this (run acts w0))) then 1 else 0) ∧
  count is_CacheDestroy (trace (run acts w0)) = length (abandoned (run acts w0)) ∧
  count is_WireBean (trace (run acts w0)) = count is_CacheNew (trace (run acts w0)) ∧
  dispatched (trace (run acts w0)) =
    replicate (count is_CacheNew (trace (run acts w0))) EVENT_MODEL_UPDATED.
Proof.
  intros Hnew Ht Hab.
  assert (accounted w0) as Hw0
    by (unfold accounted; rewrite Hnew, Ht, Hab; repeat split).
  clear Hnew Ht Hab. revert w0 Hw0.
  induction acts as [| a acts IH]; intros w0 Hw0; [exact Hw0 |].
  cbn [run]. apply IH, step_accounted, Hw0.
Qed.

(** ** Deprecation messages *)

(** X8: [checkForDeprecated] writes one console error for each of the four
    deprecated fields that the datasource carries, no other call, and so
    nothing at all for a datasource without them.  A field that holds the
    empty string counts as not carried. *)
Theorem X8_one_error_per_deprecated_field (w : World) (ds : IDataSource) :
  this_datasource (this w) = some ds →
  ∃ errors : list Call,
    (checkForDeprecated w).2 = set_trace (trace w ++ errors) w ∧
    Forall (λ c, is_ConsoleError c = true) errors ∧
    length errors = deprecated_fields ds ∧
    (deprecated_fields ds = 0 → checkForDeprecated w = (tt, w)).
Proof.
  intros Hd. destruct w as [t g f s sel ab tr]. cbn in Hd.
  unfold checkForDeprecated, deprecated_fields. run_M. rewrite Hd. cbn.
  destruct (Utils.exists_any (ds_maxConcurrentRequests ds));
    destruct (Utils.exists_any (ds_maxPagesInCache ds));
    destruct (Utils.exists_any (ds_overflowSize ds));
    destruct (Utils.exists_any (ds_pageSize ds)); cbn;
    rewrite <- ?app_assoc; cbn;
    (eexists; split; [reflexivity |];
     split; [repeat constructor |]; split; [reflexivity | discriminate]) ||
    (exists []; rewrite app_nil_r; repeat split; constructor).
Qed.

(** ** What the row model leaves to others *)

Lemma step_collaborators (a : Action) (w : World) :
  is_environment a = false →
  gridOptionsWrapper (step a w) = gridOptionsWrapper w ∧
  filterManager (step a w) = filterManager w ∧
  sortController (step a w) = sortController w ∧
  (selectionController (step a w) = selectionController w ∨
   selectionController (step a w) = ∅ ∧
   Utils.exists_ (getRowNodeIdFunc (gridOptionsWrapper w)) = false).
Proof.
  intros Ha. destruct (step_shape a w) as (quiet & extra & _ & _ & [HQ | HR]).
  - destruct HQ as (_ & _ & _ & _ & Henv).
    destruct (Henv Ha) as (Hg & Hf & Hs & Hsel). auto.
  - destruct HR as (_ & w1 & ds & -> & Hd & _ & _ & Hg & Hf & Hs & Hsel & _).
    rewrite (reset_world w1 ds Hd).
    cbn [gridOptionsWrapper filterManager sortController selectionController].
    rewrite Hg, Hf, Hs, Hsel. do 3 (split; [reflexivity |]).
    destruct (Utils.exists_ (getRowNodeIdFunc (gridOptionsWrapper w))); auto.
Qed.

(** X9: the row model reads the grid options, the filter model and the sort
    model and never writes them; and the one thing it ever does to the
    selection is to empty it, which it never does while the application
    supplies a row-identity function. *)
Theorem X9_collaborators_are_left_alone (w : World) (acts : list Action) :
  Forall (λ a, is_environment a = false) acts →
  gridOptionsWrapper (run acts w) = gridOptionsWrapper w ∧
  filterManager (run acts w) = filterManager w ∧
  sortController (run acts w) = sortController w ∧
  (selectionController (run acts w) = selectionController w ∨
   selectionController (run acts w) = ∅) ∧
  (Utils.exists_ (getRowNodeIdFunc (gridOptionsWrapper w)) = true →
   selectionController (run acts w) = selectionController w).
Proof.
  intros Hacts. revert w.
  induction Hacts as [| a acts Ha Hrest IH]; intros w; [cbn; repeat split; auto |].
  cbn [run]. destruct (IH (step a w)) as (Hg & Hf & Hs & Hsel & Hid).
  destruct (step_collaborators a w Ha) as (Hg1 & Hf1 & Hs1 & Hsel1).
  rewrite Hg, Hf, Hs, Hg1, Hf1, Hs1. do 3 (split; [reflexivity |]).
  split.
  - destruct Hsel as [-> | ->]; [| auto]. destruct Hsel1 as [-> | [-> _]]; auto.
  - intros Hfunc. rewrite Hid by (rewrite Hg1; exact Hfunc).
    destruct Hsel1 as [-> | [_ Hno]]; [reflexivity | congruence].
Qed.

(** X10: only [init], [setDatasource] and the two listeners can replace the
    cache.  Every other method, the row queries included, constructs no
    cache, destroys none, dispatches no event and leaves the selection
    alone. *)
Theorem X10_only_four_methods_reset (a : Action) (w : World) :
  may_reset a = false →
  constructed (trace (step a w)) = constructed (trace w) ∧
  dispatched (trace (step a w)) = dispatched (trace w) ∧
  count is_CacheDestroy (trace (step a w)) = count is_CacheDestroy (trace w) ∧
  count is_SelectionReset (trace (step a w)) = count is_SelectionReset (trace w) ∧
  abandoned (step a w) = abandoned w ∧
  truthy (virtualPageCache (this (step a w))) = truthy (virtualPageCache (this w)).
Proof.
  intros Ha. destruct (step_shape a w) as (quiet & extra & Hq & _ & [HQ | HR]).
  - destruct HQ as (Ht & Hab & Hc & _).
    destruct (quiet_calls _ Hq) as (Hqc & Hqd & _ & Hqdes & _ & Hqsel).
    rewrite Ht, constructed_app, dispatched_app, !count_app,
      Hqc, Hqd, Hqdes, Hqsel, !app_nil_r, !Nat.add_0_r.
    repeat split; assumption.
  - destruct HR as (Hmay & _). congruence.
Qed.

(** ** [init] *)

(** X11: [init()] does nothing at all unless the row model is the virtual
    one, even if the grid options carry a datasource.  For the virtual row
    model it registers the filter listener and the sort listener, takes the
    datasource of the grid options, and a cache is live afterwards exactly
    if one was live before or the options carry a datasource object. *)
Theorem X11_init (w : World) :
  (isRowModelVirtual (gridOptionsWrapper w) = false → init w = (tt, w)) ∧
  (isRowModelVirtual (gridOptionsWrapper w) = true →
     this_datasource (this (init w).2) = getDatasource (gridOptionsWrapper w) ∧
     added (drop (length (trace w)) (trace (init w).2)) =
       [(EVENT_FILTER_CHANGED, onFilterChangedListener);
        (EVENT_SORT_CHANGED, onSortChangedListener)] ∧
     destroyFunctions (this (init w).2) = destroyFunctions (this w) ++ [removeListeners] ∧
     truthy (virtualPageCache (this (init w).2)) =
       truthy (virtualPageCache (this w)) || truthy (getDatasource (gridOptionsWrapper w))).
Proof.
  assert (trace (addEventListeners w).2 =
            trace w ++ [AddEventListener EVENT_FILTER_CHANGED onFilterChangedListener;
                        AddEventListener EVENT_SORT_CHANGED onSortChangedListener] ∧
          destroyFunctions (this (addEventListeners w).2) =
            destroyFunctions (this w) ++ [removeListeners] ∧
          virtualPageCache (this (addEventListeners w).2) = virtualPageCache (this w))
    as (Ht0 & Hf0 & Hc0)
    by (unfold addEventListeners; run_M; rewrite <- app_assoc; repeat split).
  unfold init. unfold mbind, M_bind, gets. cbn [fst snd].
  split; intros ->; cbn [negb]; [reflexivity |].
  set (w0 := (addEventListeners w).2) in *. clearbody w0.
  destruct (getDatasource (gridOptionsWrapper w)) as [| | ds].
  1, 2: unfold setDatasource; run_M;
    rewrite Ht0, Hf0, Hc0, drop_app_length, orb_false_r; repeat split.
  rewrite setDatasource_some.
  destruct (checkForDeprecated_quiet (set_this (set_datasource (some ds)) w0))
    as (errors & -> & _ & Herr).
  rewrite (reset_world _ ds) by reflexivity.
  destruct (reset_calls_counts
              (set_trace (trace (set_this (set_datasource (some ds)) w0) ++ errors)
                 (set_this (set_datasource (some ds)) w0)))
    as (Hnone & _).
  set (calls := reset_calls _) in *. clearbody calls.
  cbn [this trace this_datasource destroyFunctions virtualPageCache
         set_virtualPageCache set_trace set_this set_datasource truthy].
  rewrite orb_true_r, Ht0, <- !app_assoc, drop_app_length, !added_app, Herr, Hnone.
  repeat split. exact Hf0.
Qed.

End Properties.

(** *** The comparison [x >= 1] on the values a grid option can hold *)

Example ge_undefined : ge undefined 1 = false.
Proof. reflexivity. Qed.

Example ge_null : ge null 1 = false.
Proof. reflexivity. Qed.

Example ge_nan : ge (num nan) 1 = false.
Proof. reflexivity. Qed.

Example ge_fraction : ge (num 0.5) 1 = false ∧ ge (num 1.5) 1 = true.
Proof. split; reflexivity. Qed.

Example ge_one : ge (num 1) 1 = true ∧ ge (num 0) 1 = false ∧ ge (num (-3)) 1 = false.
Proof. repeat split; reflexivity. Qed.

Example ge_infinity : ge (num infinity) 1 = true ∧ ge (num neg_infinity) 1 = false.
Proof. split; reflexivity. Qed.

(** The snapshot of the demo grid: three defaults set, one value kept, and
    maxPagesInCache still the zero of the options. *)
Example demo_snapshot :
  resetCache_cacheSettings demo_waiting =
  {| datasource := some demo_datasource;
     filterModel := "age > 30";
     sortModel := "name asc";
     maxConcurrentDatasourceRequests := num 2;
     paginationOverflowSize := num 5;
     paginationInitialRowCount := num 0;
     maxPagesInCache := num 0;
     pageSize := num 100;
     rowHeight := num 25;
     lastAccessedSequence := new_NumberSequence |}.
Proof. reflexivity. Qed.

(** The calls of the first [setDatasource]: the two deprecation messages (the
    empty string in overflowSize counts as missing), the selection reset,
    the construction and wiring of the cache, the event. *)
Example demo_running_trace :
  trace demo_running =
  [ConsoleError "ag-Grid: since version 5.1.x, maxConcurrentRequests is replaced with grid property maxConcurrentDatasourceRequests";
   ConsoleError "ag-Grid: since version 5.1.x, pageSize is replaced with grid property paginationPageSize";
   SelectionReset;
   CacheNew (resetCache_cacheSettings demo_waiting);
   WireBean;
   DispatchEvent EVENT_MODEL_UPDATED].
Proof. reflexivity. Qed.

(** The live cache after the first [setDatasource]: the settings are the
    snapshot, and the wiring of the stand-in has started one request. *)
Example demo_running_cache :
  ∃ c : VirtualPageCache,
    virtualPageCache (this demo_running) = some c ∧
    cacheParams c = resetCache_cacheSettings demo_waiting ∧
    activeRequestCount c = 1%Z.
Proof. eexists. repeat split. Qed.

(** A second reset destroys the first cache and keeps it among the abandoned. *)
Example demo_second_reset :
  abandoned (reset demo_running).2 =
    [VirtualPageCache_destroy (wired (new_VirtualPageCache (resetCache_cacheSettings demo_waiting)))] ∧
  drop (length (trace demo_running)) (trace (reset demo_running).2) =
    [SelectionReset; CacheDestroy; CacheNew (resetCache_cacheSettings demo_waiting);
     WireBean; DispatchEvent EVENT_MODEL_UPDATED].
Proof. split; reflexivity. Qed.

(** ** The theorems at work on the demo grid *)

(** C1 on the demo grid: the fraction 0.5 becomes page size 100, the zero
    becomes 2 concurrent requests, the unset initial row count becomes 0,
    and the overflow size 5 is kept. *)
Lemma C1_witness :
  this_datasource (this demo_waiting) = some demo_datasource ∧
  ∃ c : VirtualPageCache,
    virtualPageCache (this (reset demo_waiting).2) = some c ∧
    pageSize (cacheParams c) = num 100 ∧
    maxConcurrentDatasourceRequests (cacheParams c) = num 2 ∧
    paginationOverflowSize (cacheParams c) = num 5 ∧
    paginationInitialRowCount (cacheParams c) = num 0.
Proof.
  split; [reflexivity |].
  destruct (C1_snapshot_defaults demo_waiting demo_datasource eq_refl)
    as (c & Hc & _ & _ & Hpage & _ & Hmax & _ & _ & Hover & Hinit & _).
  exists c.
  split; [exact Hc |].
  split; [apply Hpage; reflexivity |].
  split; [apply Hmax; reflexivity |].
  split; [apply Hover; reflexivity | apply Hinit; reflexivity].
Defined.

(** C2 does not hold as stated: the demo grid supplies maxPagesInCache = 0,
    which is not >= 1, and the snapshot of the new cache still holds 0
    rather than the unbounded default. *)
Lemma C2_counterexample :
  ¬ (∀ (w : DemoWorld) (ds : IDataSource),
       this_datasource (this w) = some ds →
       ge (getMaxPagesInCache (gridOptionsWrapper w)) 1 = false →
       ∃ c : VirtualPageCache,
         virtualPageCache (this (reset w).2) = some c ∧
         unbounded (maxPagesInCache (cacheParams c)) = true).
Proof.
  intros Hclaim.
  destruct (Hclaim demo_waiting demo_datasource eq_refl eq_refl) as (c & Hc & Hunb).
  rewrite (reset_cache demo_waiting demo_datasource eq_refl) in Hc.
  injection Hc as <-.
  discriminate Hunb.
Qed.

(** C2 on the demo grid: the zero reaches the cache. *)
Lemma C2_witness :
  this_datasource (this demo_waiting) = some demo_datasource ∧
  ∃ c : VirtualPageCache,
    virtualPageCache (this (reset demo_waiting).2) = some c ∧
    maxPagesInCache (cacheParams c) = num 0.
Proof.
  split; [reflexivity |].
  destruct (C2_maxPagesInCache_copied demo_waiting demo_datasource eq_refl)
    as (c & Hc & Hmax & _).
  exists c. split; [exact Hc | exact Hmax].
Defined.

(** C3 on the demo grid: nine actions before any datasource, among them a
    filter change with server-side filtering on and [setDatasource(null)]. *)
Lemma C3_witness :
  this demo_new = new_Fields ∧
  no_datasource_set (H := demo_cache) demo_early_actions demo_new = true ∧
  (∀ rowIndex : number,
     getRow (H := demo_cache) rowIndex (run (H := demo_cache) demo_early_actions demo_new) =
     (null, run (H := demo_cache) demo_early_actions demo_new)) ∧
  getRowCount (H := demo_cache) (run (H := demo_cache) demo_early_actions demo_new) =
    (num 0, run (H := demo_cache) demo_early_actions demo_new) ∧
  reset (run (H := demo_cache) demo_early_actions demo_new) =
    (tt, run (H := demo_cache) demo_early_actions demo_new).
Proof.
  split; [reflexivity |].
  split; [reflexivity |].
  destruct (C3_no_datasource_no_op (H := demo_cache) demo_new demo_early_actions eq_refl eq_refl)
    as (_ & _ & Hrow & Hcount & _ & _ & _ & Hreset & _).
  split; [exact Hrow |].
  split; [exact Hcount | exact Hreset].
Defined.

(** C4 on the demo grid: the second reset abandons the first cache. *)
Lemma C4_witness :
  this_datasource (this demo_running) = some demo_datasource ∧
  virtualPageCache (this (reset demo_running).2) =
    some (wired (new_VirtualPageCache (resetCache_cacheSettings demo_running))) ∧
  abandoned (reset demo_running).2 =
    abandoned demo_running
    ++ [VirtualPageCache_destroy (wired (new_VirtualPageCache (resetCache_cacheSettings demo_waiting)))].
Proof.
  split; [reflexivity |].
  destruct (C4_reset_replaces_cache (H := demo_cache) demo_running demo_datasource eq_refl)
    as (Hnew & _ & _ & Hold & _).
  split; [exact Hnew |].
  destruct (Hold (wired (new_VirtualPageCache (resetCache_cacheSettings demo_waiting))) eq_refl)
    as (Hab & _).
  exact Hab.
Defined.

(** C5 on the demo grid. *)
Lemma C5_witness :
  this_datasource (this demo_running) = some demo_datasource ∧
  dispatched (trace (reset demo_running).2) =
    dispatched (trace demo_running) ++ [EVENT_MODEL_UPDATED].
Proof.
  split; [reflexivity |].
  destruct (C5_one_model_updated demo_running demo_datasource eq_refl) as (Hone & _).
  exact Hone.
Defined.

(** C6 does not hold as stated: with no datasource and no row-identity
    function, a reset returns at once and row-7 stays selected. *)
Lemma C6_counterexample :
  ¬ (∀ w : DemoWorld,
       (Utils.exists_ (getRowNodeIdFunc (gridOptionsWrapper w)) = true →
          selectionController (reset w).2 = selectionController w) ∧
       (Utils.exists_ (getRowNodeIdFunc (gridOptionsWrapper w)) = false →
          selectionController (reset w).2 = ∅)).
Proof.
  intros Hclaim.
  destruct (Hclaim demo_new) as [_ Hcleared].
  specialize (Hcleared eq_refl).
  rewrite (reset_missing demo_new eq_refl) in Hcleared.
  cbn [snd demo_new selectionController] in Hcleared.
  assert ("row-7" ∈ (∅ : gset string)) as Hin
    by (rewrite <- Hcleared; apply elem_of_singleton; reflexivity).
  exact (not_elem_of_empty _ Hin).
Qed.

(** C7 on the demo grid: the application changes every option while the
    first cache is live. *)
Lemma C7_witness :
  virtualPageCache (this demo_running) =
    some (wired (new_VirtualPageCache (resetCache_cacheSettings demo_waiting))) ∧
  changes_configuration (ChangeGridOptions demo_options' : @Action string string string unit unit) = true ∧
  virtualPageCache (this (step (H := demo_cache) (ChangeGridOptions demo_options') demo_running)) =
    some (wired (new_VirtualPageCache (resetCache_cacheSettings demo_waiting))) ∧
  ∃ c' : VirtualPageCache,
    virtualPageCache
      (this (reset (step (H := demo_cache) (ChangeGridOptions demo_options') demo_running)).2) =
      some c' ∧
    pageSize (cacheParams c') = num 200 ∧
    paginationOverflowSize (cacheParams c') = num 1 ∧
    rowHeight (cacheParams c') = num 30.
Proof.
  split; [reflexivity |].
  split; [reflexivity |].
  destruct (C7_snapshot_taken_at_reset (H := demo_cache) demo_running
              (wired (new_VirtualPageCache (resetCache_cacheSettings demo_waiting)))
              (ChangeGridOptions demo_options') eq_refl eq_refl)
    as (Hlive & _ & _ & _ & _ & _ & _ & Hnext).
  split; [exact Hlive |].
  destruct (Hnext demo_datasource eq_refl)
    as (c' & Hc' & _ & _ & Hheight & _ & Hpage & _ & Hover & _).
  exists c'.
  split; [exact Hc' |].
  split; [exact Hpage |].
  split; [exact Hover | exact Hheight].
Defined.

(** C6 on the demo grid: with a datasource and no row-identity function the
    reset empties the selection; once the application supplies the function
    row-7 stays selected. *)
Lemma C6_witness :
  this_datasource (this demo_waiting) = some demo_datasource ∧
  Utils.exists_ (getRowNodeIdFunc (gridOptionsWrapper demo_waiting)) = false ∧
  selectionController (reset demo_waiting).2 = ∅ ∧
  Utils.exists_
    (getRowNodeIdFunc (gridOptionsWrapper (set_gridOptionsWrapper demo_options' demo_waiting))) =
    true ∧
  selectionController (reset (set_gridOptionsWrapper demo_options' demo_waiting)).2 = {["row-7"]}.
Proof.
  split; [reflexivity |].
  split; [reflexivity |].
  destruct (C6_selection_across_reset demo_waiting) as [Hpresent _].
  destruct (Hpresent demo_datasource eq_refl) as [_ Hcleared].
  split; [exact (Hcleared eq_refl) |].
  split; [reflexivity |].
  destruct (C6_selection_across_reset (set_gridOptionsWrapper demo_options' demo_waiting))
    as [Hpresent' _].
  destruct (Hpresent' demo_datasource eq_refl) as [Hkept _].
  exact (Hkept eq_refl).
Defined.

(** C8 on the demo grid, where server-side filtering is on and server-side
    sorting is off. *)
Lemma C8_witness :
  isEnableServerSideFilter (gridOptionsWrapper demo_running) = true ∧
  isEnableServerSideSorting (gridOptionsWrapper demo_running) = false ∧
  onFilterChanged demo_running = reset demo_running ∧
  onSortChanged demo_running = (tt, demo_running).
Proof.
  split; [reflexivity |].
  split; [reflexivity |].
  destruct (C8_listeners_reset_iff_enabled demo_running) as (Hfilter & _ & _ & Hsort & _).
  split; [exact (Hfilter eq_refl) | exact (Hsort eq_refl)].
Defined.

(** C8 does not hold without the datasource condition: on the new demo
    grid server-side filtering is on, no datasource is set, and the
    filter-changed event constructs no cache. *)
Lemma C8_counterexample :
  ¬ (∀ w : DemoWorld,
       (CacheNew (resetCache_cacheSettings w)
          ∈ drop (length (trace w)) (trace (onFilterChanged w).2)
        ↔ isEnableServerSideFilter (gridOptionsWrapper w) = true) ∧
       (CacheNew (resetCache_cacheSettings w)
          ∈ drop (length (trace w)) (trace (onSortChanged w).2)
        ↔ isEnableServerSideSorting (gridOptionsWrapper w) = true)).
Proof.
  intros Hclaim.
  destruct (Hclaim demo_new) as [[_ Hfilter] _].
  specialize (Hfilter eq_refl).
  rewrite (onFilterChanged_missing demo_new eq_refl) in Hfilter.
  cbn in Hfilter. inversion Hfilter.
Qed.

(** C9 on the demo grid: the datasource with pageSize 50 and the one
    without get the same page size, the default 100. *)
Lemma C9_witness :
  ∃ c1 c2 : VirtualPageCache,
    virtualPageCache (this (setDatasource (some demo_datasource) demo_new).2) = some c1 ∧
    virtualPageCache (this (setDatasource (some demo_datasource_clean) demo_new).2) = some c2 ∧
    pageSize (cacheParams c1) = pageSize (cacheParams c2) ∧
    maxConcurrentDatasourceRequests (cacheParams c1) =
      maxConcurrentDatasourceRequests (cacheParams c2).
Proof.
  destruct (C9_deprecated_fields_ignored demo_new demo_datasource demo_datasource_clean)
    as (c1 & c2 & H1 & H2 & _ & _ & _ & _ & Hmax & _ & _ & _ & Hpage & _).
  exists c1, c2.
  split; [exact H1 |].
  split; [exact H2 |].
  split; [exact Hpage | exact Hmax].
Defined.

(** C10 on the demo grid. *)
Lemma C10_witness :
  addItems (RowNode := string) [any_object] demo_running =
    (tt, set_trace (trace demo_running ++ [ConsoleLog "not yet supported"]) demo_running) ∧
  (getRowCount (H := demo_cache) (addItems (RowNode := string) [any_object] demo_running).2).1 =
    (getRowCount (H := demo_cache) demo_running).1.
Proof.
  destruct (C10_mutators_only_log (H := demo_cache) demo_running (num 0) [any_object] ["row-7"])
    as (_ & _ & Hadd & Hsame).
  split; [exact Hadd |].
  destruct (Hsame (addItems (RowNode := string) [any_object] demo_running).2
              (or_intror (or_intror eq_refl)))
    as (_ & _ & _ & _ & _ & _ & _ & _ & [Hcount _] & _).
  exact Hcount.
Defined.

(** ** The further properties at work on the demo grid *)

(** X1 on the demo grid: after the busy day, [destroy()] removes the two
    listeners of the one [init()]. *)
Lemma X1_witness :
  this demo_new = new_Fields ∧
  added (trace demo_new) = [] ∧
  removed (drop (length (trace (run (H := demo_cache) demo_busy_actions demo_new)))
             (trace (destroy (run (H := demo_cache) demo_busy_actions demo_new)).2)) =
    [(EVENT_FILTER_CHANGED, onFilterChangedListener);
     (EVENT_SORT_CHANGED, onSortChangedListener)].
Proof.
  split; [reflexivity |].
  split; [reflexivity |].
  destruct (X1_destroy_removes_registered_listeners (H := demo_cache)
              demo_new demo_busy_actions eq_refl eq_refl) as [Hremoved _].
  rewrite Hremoved. reflexivity.
Defined.

(** X3 on the demo grid: the cache survives the loss of the datasource. *)
Lemma X3_witness :
  (isEmpty demo_running).1 = false ∧
  (isEmpty (run (H := demo_cache)
              [SetDatasource null; Destroy; FilterChanged] demo_running)).1 = false.
Proof.
  split; [reflexivity |].
  destruct (X3_cache_is_never_dropped (H := demo_cache) demo_running
              [SetDatasource null; Destroy; FilterChanged] eq_refl) as [Hstill _].
  exact Hstill.
Defined.

(** X4 on the demo grid. *)
Lemma X4_witness :
  truthy (null : maybe (@IDataSource unit)) = false ∧
  virtualPageCache (this (setDatasource null demo_running).2) =
    virtualPageCache (this demo_running) ∧
  onFilterChanged (setDatasource null demo_running).2 =
    (tt, (setDatasource null demo_running).2).
Proof.
  split; [reflexivity |].
  destruct (X4_setDatasource_without_object (H := demo_cache) demo_running null eq_refl)
    as (_ & Hcache & _ & _ & _ & Hfilter & _).
  split; [exact Hcache | exact Hfilter].
Defined.

(** X5 on the demo grid: the three caches of the busy day. *)
Lemma X5_witness :
  constructed (trace demo_new) = [] ∧
  length (constructed (trace (run (H := demo_cache) demo_busy_actions demo_new))) = 3 ∧
  Forall valid_settings
    (constructed (trace (run (H := demo_cache) demo_busy_actions demo_new))).
Proof.
  split; [reflexivity |].
  split; [reflexivity |].
  exact (X5_constructed_caches_get_valid_settings (H := demo_cache)
           demo_new demo_busy_actions eq_refl).
Defined.

(** X6 on the demo grid. *)
Lemma X6_witness :
  this_datasource (this demo_running) = some demo_datasource ∧
  dispatched (trace (reset (reset demo_running).2).2) =
    dispatched (trace demo_running) ++ [EVENT_MODEL_UPDATED; EVENT_MODEL_UPDATED].
Proof.
  split; [reflexivity |].
  destruct (X6_second_reset demo_running demo_datasource eq_refl)
    as (_ & _ & _ & _ & _ & Hevents).
  exact Hevents.
Defined.

(** X7 on the demo grid: three caches constructed, two abandoned, one live. *)
Lemma X7_witness :
  this demo_new = new_Fields ∧ trace demo_new = [] ∧ abandoned demo_new = [] ∧
  count is_CacheNew (trace (run (H := demo_cache) demo_busy_actions demo_new)) = 3 ∧
  length (abandoned (run (H := demo_cache) demo_busy_actions demo_new)) = 2 ∧
  count is_CacheNew (trace (run (H := demo_cache) demo_busy_actions demo_new)) =
    length (abandoned (run (H := demo_cache) demo_busy_actions demo_new)) +
    (if truthy (virtualPageCache (this (run (H := demo_cache) demo_busy_actions demo_new)))
     then 1 else 0).
Proof.
  do 5 (split; [reflexivity |]).
  destruct (X7_caches_are_accounted_for (H := demo_cache) demo_new demo_busy_actions
              eq_refl eq_refl eq_refl) as (Hbooks & _).
  exact Hbooks.
Defined.

(** X8 on the demo grid: two of the four fields are carried (the empty
    string in overflowSize does not count), so two errors are written. *)
Lemma X8_witness :
  this_datasource (this demo_waiting) = some demo_datasource ∧
  ∃ errors : list Call,
    (checkForDeprecated demo_waiting).2 = set_trace (trace demo_waiting ++ errors) demo_waiting ∧
    length errors = 2.
Proof.
  split; [reflexivity |].
  destruct (X8_one_error_per_deprecated_field demo_waiting demo_datasource eq_refl)
    as (errors & Hworld & _ & Hlength & _).
  exists errors. split; [exact Hworld | exact Hlength].
Defined.

(** X9 on the demo grid: the busy day leaves the grid options as they were. *)
Lemma X9_witness :
  Forall (λ a : DemoAction, is_environment a = false) demo_busy_actions ∧
  gridOptionsWrapper (run (H := demo_cache) demo_busy_actions demo_new) = demo_options.
Proof.
  assert (Forall (λ a : DemoAction, is_environment a = false) demo_busy_actions) as Hown
    by (repeat constructor).
  split; [exact Hown |].
  destruct (X9_collaborators_are_left_alone (H := demo_cache) demo_new demo_busy_actions Hown)
    as (Hoptions & _).
  exact Hoptions.
Defined.

(** X10 on the demo grid: a row query dispatches nothing. *)
Lemma X10_witness :
  may_reset (GetRow (num 3) : DemoAction) = false ∧
  dispatched (trace (step (H := demo_cache) (GetRow (num 3)) demo_running)) =
    dispatched (trace demo_running).
Proof.
  split; [reflexivity |].
  destruct (X10_only_four_methods_reset (H := demo_cache) (GetRow (num 3)) demo_running eq_refl)
    as (_ & Hevents & _).
  exact Hevents.
Defined.

(** X11 on the demo grid, whose options carry no datasource. *)
Lemma X11_witness :
  isRowModelVirtual (gridOptionsWrapper demo_new) = true ∧
  truthy (virtualPageCache (this (init demo_new).2)) = false ∧
  destroyFunctions (this (init demo_new).2) = [removeListeners].
Proof.
  split; [reflexivity |].
  destruct (X11_init demo_new) as [_ Hvirtual].
  destruct (Hvirtual eq_refl) as (_ & _ & Hclosures & Hcache).
  split; [exact Hcache | exact Hclosures].
Defined.
